(** * Token lifecycle of the fastify_auth service

    A shallow embedding of the TypeScript services

      - [src/services/jwt.service.ts]            (class [JwtService])
      - [src/services/refresh-token.service.ts]  (class [RefreshTokenService])
      - [src/services/user.service.ts]           (class [UserService])
      - [src/services/auth.service.ts]           (class [AuthService])
      - [src/middleware/auth.middleware.ts]      ([authenticate], [optionalAuthenticate])

    together with the two libraries they drive, [jsonwebtoken] and the Prisma
    client, and the properties of rotation, issuing and access validation
    proved about them.

    Conventions.
      - A JavaScript [Date] and [Date.now()] are milliseconds since the epoch,
        a [Z].
      - An [async] method that may throw is a computation in the monad
        [M S A := S -> Outcome A * S]: it returns or throws, and the state it
        leaves behind is the state at that point (a throw does not undo what
        was written before it; only [transaction] does).
      - What a call reads from its surroundings (the clock, [Math.random],
        [process.hrtime]) is an explicit argument, [Env.t]. *)

From Stdlib Require Import ZArith NArith List String Ascii Bool Lia DecimalString.
Import ListNotations.
Local Open Scope Z_scope.

(** ** Exceptions ([src/utils/errors.ts], and those of the two libraries) *)

Inductive Exn : Type :=
| AuthenticationError (message : string)
| ValidationError (message : string)
| ConflictError (message : string)
| NotFoundError (message : string)
| PrismaClientKnownRequestError (code : string)
| JsonWebTokenError (message : string)
| TokenExpiredError.

(** [AppError.statusCode], as the constructors of the subclasses set it
    (library errors have none: [formatError] gives them 401 or 500). *)
Definition statusCode (e : Exn) : option Z :=
  match e with
  | AuthenticationError _ => Some 401
  | ValidationError _ => Some 400
  | ConflictError _ => Some 409
  | NotFoundError _ => Some 404
  | _ => None
  end.

(** ** The monad of methods that read and write a store and may throw *)

Inductive Outcome (A : Type) : Type :=
| Return (a : A)
| Throw (e : Exn).
Arguments Return {A} a.
Arguments Throw {A} e.

Definition M (S A : Type) : Type := S -> Outcome A * S.

Definition ret {S A} (a : A) : M S A := fun s => (Return a, s).

Definition throw {S A} (e : Exn) : M S A := fun s => (Throw e, s).

Definition bind {S A B} (m : M S A) (k : A -> M S B) : M S B :=
  fun s =>
    match m s with
    | (Return a, s') => k a s'
    | (Throw e, s') => (Throw e, s')
    end.

(** [try { m } catch (error) { h error }] *)
Definition try_catch {S A} (m : M S A) (h : Exn -> M S A) : M S A :=
  fun s =>
    match m s with
    | (Return a, s') => (Return a, s')
    | (Throw e, s') => h e s'
    end.

Definition get_state {S} : M S S := fun s => (Return s, s).
Definition put_state {S} (s : S) : M S unit := fun _ => (Return tt, s).
Definition modify_state {S} (f : S -> S) : M S unit :=
  fun s => (Return tt, f s).

Declare Scope monad_scope.
Delimit Scope monad_scope with monad.
Notation "x <- m ;; k" := (bind m (fun x => k))
  (at level 61, m at next level, right associativity) : monad_scope.
Notation "m ;;; k" := (bind m (fun _ => k))
  (at level 61, right associativity) : monad_scope.

(** ** Identifiers, time, passwords *)

(** Primary keys are generated by the database (the Prisma schema is not part
    of the sources; the types say [id: string]).  The model draws them from a
    sequence kept in the database, which like the real generator never hands
    out the same key twice. *)
Definition Id : Type := N.
Definition Time : Type := Z.

(** [bcrypt.hash(password, saltRounds)]: the hash is kept symbolically, as the
    password it was computed from and the cost; [bcrypt.compare] accepts
    exactly that password. *)
Inductive Hash : Type := Bcrypt (saltRounds : nat) (plain : string).

Definition bcrypt_hash (plain : string) (saltRounds : nat) : Hash :=
  Bcrypt saltRounds plain.

Definition bcrypt_compare (plain : string) (h : Hash) : bool :=
  match h with Bcrypt _ p => String.eqb plain p end.

(** ** Signed tokens ([jsonwebtoken])

    A compact JWS string is determined by its payload and its signature and
    determines both.  The model keeps the payload and, for the HS256
    signature, the secret it was computed with; any other text is
    [Malformed].  Two tokens are the same string exactly when they are equal
    here. *)

Module Payload.
(** The object handed to [jwt.sign]: [Omit<JwtPayload, 'iat' | 'exp'>] or
    [Omit<RefreshTokenPayload, 'iat' | 'exp'>]; a field the object does not
    have is [None] ([undefined] when read). *)
Record t : Type := mk {
  userId : Id;
  email : option string;
  tokenVersion : option Z;
  jti : option string
}.
End Payload.

Module Claims.
(** The decoded payload of a token: the signed object and the registered
    claims [jwt.sign] adds ([iat], [exp] in seconds; [iss]; [aud]). *)
Record t : Type := mk {
  payload : Payload.t;
  iat : Z;
  exp : Z;
  iss : string;
  aud : string
}.
Definition userId (c : t) : Id := Payload.userId (payload c).
Definition email (c : t) : option string := Payload.email (payload c).
Definition tokenVersion (c : t) : option Z := Payload.tokenVersion (payload c).
Definition jti (c : t) : option string := Payload.jti (payload c).
End Claims.

Inductive Token : Type :=
| Jws (claims : Claims.t) (secret : string)
| Malformed (text : string).

Definition option_eq_dec {A} (dec : forall x y : A, {x = y} + {x <> y})
  (x y : option A) : {x = y} + {x <> y}.
Proof. decide equality. Defined.

Definition Payload_eq_dec (x y : Payload.t) : {x = y} + {x <> y}.
Proof.
  decide equality;
    auto using N.eq_dec, Z.eq_dec, string_dec, option_eq_dec.
Defined.

Definition Claims_eq_dec (x y : Claims.t) : {x = y} + {x <> y}.
Proof.
  decide equality; auto using Z.eq_dec, string_dec, Payload_eq_dec.
Defined.

Definition Token_eq_dec (x y : Token) : {x = y} + {x <> y}.
Proof. decide equality; auto using string_dec, Claims_eq_dec. Defined.

Definition Token_eqb (x y : Token) : bool :=
  if Token_eq_dec x y then true else false.

Record SignOptions : Type := {
  expiresIn : Z;       (* seconds; the [ms]-style text of the config, parsed *)
  issuer : string;
  audience : string
}.

(** [jwt.sign(payload, secret, options)] at clock reading [clock]. *)
Definition jwt_sign (clock : Time) (payload : Payload.t) (secret : string)
  (options : SignOptions) : Token :=
  let iat := clock / 1000 in
  Jws (Claims.mk payload iat (iat + expiresIn options)
         (issuer options) (audience options))
      secret.

(** [jwt.verify(token, secret, { issuer, audience })] at clock reading
    [clock]: signature, then expiry ([clockTimestamp >= exp]), then audience
    and issuer. *)
Definition jwt_verify (clock : Time) (token : Token) (secret : string)
  (iss aud : string) : Exn + Claims.t :=
  match token with
  | Malformed _ => inl (JsonWebTokenError "jwt malformed")
  | Jws c key =>
      if negb (String.eqb key secret) then
        inl (JsonWebTokenError "invalid signature")
      else if Claims.exp c <=? clock / 1000 then
        inl TokenExpiredError
      else if negb (String.eqb (Claims.aud c) aud) then
        inl (JsonWebTokenError "jwt audience invalid")
      else if negb (String.eqb (Claims.iss c) iss) then
        inl (JsonWebTokenError "jwt issuer invalid")
      else inr c
  end.

(** [jwt.decode(token)]: the payload, unverified; [null] for other text. *)
Definition jwt_decode (token : Token) : option Claims.t :=
  match token with
  | Jws c _ => Some c
  | Malformed _ => None
  end.

(** ** Configuration and surroundings *)

Module Config.
(** The fields of [config] the services read.  The two lifetimes are the
    configured texts (['15m'], ['7d'] by default) in seconds. *)
Record t : Type := mk {
  JWT_SECRET : string;
  JWT_REFRESH_SECRET : string;
  JWT_EXPIRES_IN : Z;
  JWT_REFRESH_EXPIRES_IN : Z;
  NODE_ENV : string
}.
End Config.

Module Env.
(** What one call reads from outside the store.
    [clock]: [Date.now()] and [new Date()], one reading for the call;
    [hrtime]: [process.hrtime.bigint()];
    [random_jti], [random_sid]: the text [Math.random().toString(36)] of
    the call in [generateTokens] and of the one that builds a session id. *)
Record t : Type := mk {
  clock : Time;
  hrtime : N;
  random_jti : string;
  random_sid : string
}.
End Env.

(** Template-literal rendering of a number. *)
Definition string_of_Z (z : Z) : string := NilZero.string_of_int (Z.to_int z).
Definition string_of_N (n : N) : string := NilZero.string_of_uint (N.to_uint n).

(** [s.substring(from)] and [s.substring(from, to)] for [from <= to]. *)
Definition substring_from (from : nat) (s : string) : string :=
  String.substring from (String.length s - from) s.
Definition substring_range (from to : nat) (s : string) : string :=
  String.substring from (to - from) s.

(** The seven days [setDate(getDate() + 7)] adds to a date, in milliseconds
    (no daylight-saving change inside the week). *)
Definition SEVEN_DAYS : Z := 7 * 24 * 60 * 60 * 1000.

Module AuthTokens.
Record t : Type := mk {
  accessToken : Token;
  refreshToken : Token
}.
End AuthTokens.

(** ** JwtService *)

Section JwtService.
Variable config : Config.t.

Definition accessTokenSecret : string := Config.JWT_SECRET config.
Definition refreshTokenSecret : string := Config.JWT_REFRESH_SECRET config.
Definition accessTokenExpiry : Z := Config.JWT_EXPIRES_IN config.
Definition refreshTokenExpiry : Z := Config.JWT_REFRESH_EXPIRES_IN config.

Definition generateAccessToken (clock : Time) (payload : Payload.t) : Token :=
  jwt_sign clock payload accessTokenSecret
    {| expiresIn := accessTokenExpiry;
       issuer := "auth-api"; audience := "auth-client" |}.

Definition generateRefreshToken (clock : Time) (payload : Payload.t) : Token :=
  jwt_sign clock payload refreshTokenSecret
    {| expiresIn := refreshTokenExpiry;
       issuer := "auth-api"; audience := "auth-client" |}.

Definition jti_of (kind : string) (env : Env.t) : string :=
  let now := string_of_Z (Env.clock env) in
  let random := substring_range 2 15 (Env.random_jti env) in
  let nanoTime := string_of_N (Env.hrtime env) in
  (kind ++ "-" ++ now ++ "-" ++ nanoTime ++ "-" ++ random)%string.

(** Every caller passes the version; the default [tokenVersion = 1] of the
    signature is never used. *)
Definition generateTokens (env : Env.t) (userId : Id) (email : string)
  (tokenVersion : Z) : AuthTokens.t :=
  let accessToken :=
    generateAccessToken (Env.clock env)
      (Payload.mk userId (Some email) None (Some (jti_of "access" env))) in
  let refreshToken :=
    generateRefreshToken (Env.clock env)
      (Payload.mk userId None (Some tokenVersion)
         (Some (jti_of "refresh" env))) in
  AuthTokens.mk accessToken refreshToken.

Definition verifyAccessToken {S} (clock : Time) (token : Token) : M S Claims.t :=
  match jwt_verify clock token accessTokenSecret "auth-api" "auth-client" with
  | inr payload => ret payload
  | inl _ => throw (AuthenticationError "Invalid or expired access token")
  end.

Definition verifyRefreshToken {S} (clock : Time) (token : Token) : M S Claims.t :=
  match jwt_verify clock token refreshTokenSecret "auth-api" "auth-client" with
  | inr payload => ret payload
  | inl _ => throw (AuthenticationError "Invalid or expired refresh token")
  end.

Definition decodeToken (token : Token) : option Claims.t := jwt_decode token.

Definition getTokenExpiry (token : Token) : option Time :=
  match jwt_decode token with
  | Some decoded =>
      if Claims.exp decoded =? 0 then None
      else Some (Claims.exp decoded * 1000)
  | None => None
  end.
End JwtService.

(** ** The database (Prisma client)

    The tables are lists of rows in insertion order.  The Prisma schema
    ([prisma/schema.prisma]) is not among the sources; what the model takes
    from it is said at the definitions that depend on it ([create],
    [delete] of a user). *)

Module User.
Record t : Type := mk {
  id : Id;
  email : string;
  password : Hash;
  createdAt : Time;
  updatedAt : Time
}.
End User.

Module RefreshTokenData.
Record t : Type := mk {
  id : Id;
  token : Token;
  userId : Id;
  tokenVersion : Z;
  sessionId : string;
  expiresAt : Time;
  createdAt : Time;
  updatedAt : Time
}.
End RefreshTokenData.

Module Db.
Record t : Type := mk {
  users : list User.t;
  refreshTokens : list RefreshTokenData.t;
  sequence : N          (* the next primary key *)
}.
Definition empty : t := mk [] [] 0%N.
Definition with_refreshTokens (db : t) (rows : list RefreshTokenData.t) : t :=
  mk (users db) rows (sequence db).
Definition with_users (db : t) (rows : list User.t) : t :=
  mk rows (refreshTokens db) (sequence db).
End Db.

Module prisma.

Definition P2002 : Exn := PrismaClientKnownRequestError "P2002". (* unique constraint *)
Definition P2003 : Exn := PrismaClientKnownRequestError "P2003". (* foreign key *)
Definition P2025 : Exn := PrismaClientKnownRequestError "P2025". (* record not found *)

Module refreshToken.
Import RefreshTokenData.

Definition by_token (tok : Token) (r : t) : bool := Token_eqb (token r) tok.
Definition by_id (i : Id) (r : t) : bool := N.eqb (id r) i.
Definition by_sessionId (s : string) (r : t) : bool := String.eqb (sessionId r) s.
Definition by_userId (u : Id) (r : t) : bool := N.eqb (userId r) u.

(** [findUnique({ where })] *)
Definition findUnique (where_ : t -> bool) : M Db.t (option t) :=
  fun db => (Return (find where_ (Db.refreshTokens db)), db).

(** [delete({ where })]: throws when no row matches. *)
Definition delete (where_ : t -> bool) : M Db.t unit :=
  fun db =>
    if existsb where_ (Db.refreshTokens db) then
      (Return tt,
       Db.with_refreshTokens db
         (filter (fun r => negb (where_ r)) (Db.refreshTokens db)))
    else (Throw P2025, db).

(** [deleteMany({ where })] *)
Definition deleteMany (where_ : t -> bool) : M Db.t unit :=
  fun db =>
    (Return tt,
     Db.with_refreshTokens db
       (filter (fun r => negb (where_ r)) (Db.refreshTokens db))).

(** Modelled from the spec: the schema of the [RefreshToken] table, which
    is missing from the sources.  The spec's data model gives the row as
    [{id, token (unique), userId, tokenVersion, sessionId (unique), expiresAt,
    createdAt, updatedAt}], and [userId] refers to a [User] row (the code
    reads the relation with [include: { user: true }]).
    [create({ data })] at database time [now] therefore checks the two
    unique columns and the foreign key, and fills in the key and both
    timestamps. *)
Definition create (now : Time) (tok : Token) (uid : Id) (version : Z)
  (sid : string) (expires : Time) : M Db.t t :=
  fun db =>
    if existsb (by_token tok) (Db.refreshTokens db)
       || existsb (by_sessionId sid) (Db.refreshTokens db)
    then (Throw P2002, db)
    else if negb (existsb (fun u => N.eqb (User.id u) uid) (Db.users db))
    then (Throw P2003, db)
    else
      let row := mk (Db.sequence db) tok uid version sid expires now now in
      (Return row,
       Db.mk (Db.users db) (Db.refreshTokens db ++ [row])
         (N.succ (Db.sequence db))).

(** The row [orderBy: { tokenVersion: 'desc' }] puts first. *)
Fixpoint first_desc (rows : list t) : option t :=
  match rows with
  | [] => None
  | r :: rest =>
      match first_desc rest with
      | Some r' => if tokenVersion r <? tokenVersion r' then Some r' else Some r
      | None => Some r
      end
  end.

(** [findFirst({ where, orderBy: { tokenVersion: 'desc' },
    select: { tokenVersion: true } })] *)
Definition findFirst_tokenVersion_desc (where_ : t -> bool) : M Db.t (option Z) :=
  fun db =>
    (Return (option_map tokenVersion
               (first_desc (filter where_ (Db.refreshTokens db)))), db).

Definition findMany : M Db.t (list t) :=
  fun db => (Return (Db.refreshTokens db), db).
End refreshToken.

Module user.
Import User.

Definition by_id (i : Id) (u : t) : bool := N.eqb (id u) i.
Definition by_email (e : string) (u : t) : bool := String.eqb (email u) e.

Definition findUnique (where_ : t -> bool) : M Db.t (option t) :=
  fun db => (Return (find where_ (Db.users db)), db).

(** [create({ data })]: [email] is a unique column ([findUnique] is called
    with it). *)
Definition create (now : Time) (mail : string) (pw : Hash) : M Db.t t :=
  fun db =>
    if existsb (by_email mail) (Db.users db) then (Throw P2002, db)
    else
      let row := mk (Db.sequence db) mail pw now now in
      (Return row,
       Db.mk (Db.users db ++ [row]) (Db.refreshTokens db)
         (N.succ (Db.sequence db))).

(** [update({ where: { id }, data: { password, updatedAt } })] *)
Definition update_password (i : Id) (pw : Hash) (at_ : Time) : M Db.t unit :=
  fun db =>
    if existsb (by_id i) (Db.users db) then
      (Return tt,
       Db.with_users db
         (map (fun u => if by_id i u
                        then mk (id u) (email u) pw (createdAt u) at_
                        else u)
            (Db.users db)))
    else (Throw P2025, db).

(** Modelled from the spec: the relation between the two tables, missing
    with the schema.  The spec lets a session row belong to a user, and
    [UserService.deleteUser] says of this call "cascade will handle refresh
    tokens": [delete({ where: { id } })] removes the user and the user's
    session rows. *)
Definition delete (i : Id) : M Db.t unit :=
  fun db =>
    if existsb (by_id i) (Db.users db) then
      (Return tt,
       Db.mk (filter (fun u => negb (by_id i u)) (Db.users db))
         (filter (fun r => negb (refreshToken.by_userId i r))
            (Db.refreshTokens db))
         (Db.sequence db))
    else (Throw P2025, db).
End user.

(** [$transaction(async (tx) => body)], Prisma's interactive transaction.
    The client opens a database transaction, runs the callback with the
    transaction client and commits when the callback returns; when the
    callback throws, the client rolls the transaction back and throws the
    error on to the caller, so none of the callback's writes remain. *)
Definition transaction {A} (body : M Db.t A) : M Db.t A :=
  fun db =>
    match body db with
    | (Return a, db') => (Return a, db')
    | (Throw e, _) => (Throw e, db)
    end.

End prisma.

Local Open Scope monad_scope.

(** ** RefreshTokenService ([src/services/refresh-token.service.ts]) *)

Module RefreshTokenService.
Import prisma.

Definition cleanupExpiredTokens (now : Time) (userId : option Id) : M Db.t unit :=
  refreshToken.deleteMany
    (fun r =>
       (RefreshTokenData.expiresAt r <? now)
       && match userId with
          | Some u => refreshToken.by_userId u r
          | None => true
          end).

Definition createRefreshToken (now : Time) (token : Token) (userId : Id)
  (tokenVersion : Z) (sessionId : string) (expiresAt : Time)
  : M Db.t RefreshTokenData.t :=
  cleanupExpiredTokens now (Some userId) ;;;
  refreshToken.create now token userId tokenVersion sessionId expiresAt.

Definition deleteRefreshToken (id : Id) : M Db.t unit :=
  try_catch (refreshToken.delete (refreshToken.by_id id)) (fun _ => ret tt).

Definition deleteRefreshTokenByToken (token : Token) : M Db.t unit :=
  try_catch (refreshToken.delete (refreshToken.by_token token)) (fun _ => ret tt).

Definition deleteRefreshTokenBySessionId (sessionId : string) : M Db.t unit :=
  try_catch (refreshToken.delete (refreshToken.by_sessionId sessionId))
    (fun _ => ret tt).

Definition findRefreshToken (now : Time) (token : Token)
  : M Db.t (option RefreshTokenData.t) :=
  found <- refreshToken.findUnique (refreshToken.by_token token) ;;
  match found with
  | Some r =>
      if RefreshTokenData.expiresAt r <? now then
        deleteRefreshToken (RefreshTokenData.id r) ;;; ret None
      else ret (Some r)
  | None => ret None
  end.

Definition deleteAllUserRefreshTokens (userId : Id) : M Db.t unit :=
  refreshToken.deleteMany (refreshToken.by_userId userId).

Definition updateTokenVersion (userId : Id) (newVersion : Z) : M Db.t unit :=
  deleteAllUserRefreshTokens userId.

(** [latestToken?.tokenVersion || 1]: [||] takes the right operand when
    there is no row and also when the version is [0]. *)
Definition getUserTokenVersion (userId : Id) : M Db.t Z :=
  latestToken <-
    refreshToken.findFirst_tokenVersion_desc (refreshToken.by_userId userId) ;;
  ret match latestToken with
      | Some v => if v =? 0 then 1 else v
      | None => 1
      end.

Definition cleanupAllExpiredTokens (now : Time) : M Db.t unit :=
  cleanupExpiredTokens now None.
End RefreshTokenService.

(** ** UserService ([src/services/user.service.ts]) *)

Module RegisterRequest.
Record t : Type := mk { email : string; password : string }.
End RegisterRequest.

Module LoginRequest.
Record t : Type := mk { email : string; password : string }.
End LoginRequest.

Module UserService.
Import prisma.

(** [String.prototype.toLowerCase] on ASCII text. *)
Definition lower (c : ascii) : ascii :=
  let n := nat_of_ascii c in
  if ((65 <=? n) && (n <=? 90))%nat then ascii_of_nat (n + 32) else c.

Fixpoint toLowerCase (s : string) : string :=
  match s with
  | EmptyString => EmptyString
  | String c rest => String (lower c) (toLowerCase rest)
  end.

(** The class [[^\s@]] on ASCII text. *)
Definition plain (c : ascii) : bool :=
  let n := nat_of_ascii c in
  negb (((9 <=? n) && (n <=? 13)) || (n =? 32) || (n =? 64))%nat.

Fixpoint all_plain (s : string) : bool :=
  match s with
  | EmptyString => true
  | String c rest => plain c && all_plain rest
  end.

(** Some ["."] of [s] has a character after it. *)
Fixpoint dot_before_end (s : string) : bool :=
  match s with
  | String c (String _ _ as rest) => Ascii.eqb c "." || dot_before_end rest
  | _ => false
  end.

(** [seen]: a character was read before the ["@"]. *)
Fixpoint email_from (seen : bool) (s : string) : bool :=
  match s with
  | EmptyString => false
  | String c rest =>
      if Ascii.eqb c "@" then
        seen && all_plain rest
        && match rest with
           | String _ tail => dot_before_end tail
           | EmptyString => false
           end
      else plain c && email_from true rest
  end.

(** [/^[^\s@]+@[^\s@]+\.[^\s@]+$/.test(email)] *)
Definition isValidEmail (email : string) : bool := email_from false email.

Definition createUser (now : Time) (userData : RegisterRequest.t)
  : M Db.t User.t :=
  let email := RegisterRequest.email userData in
  let password := RegisterRequest.password userData in
  if String.eqb email EmptyString || String.eqb password EmptyString then
    throw (ValidationError "Email and password are required")
  else if negb (isValidEmail email) then
    throw (ValidationError "Invalid email format")
  else if (String.length password <? 8)%nat then
    throw (ValidationError "Password must be at least 8 characters long")
  else
    existingUser <- user.findUnique (user.by_email (toLowerCase email)) ;;
    match existingUser with
    | Some _ => throw (ConflictError "User with this email already exists")
    | None =>
        let saltRounds := 12%nat in
        let hashedPassword := bcrypt_hash password saltRounds in
        user.create now (toLowerCase email) hashedPassword
    end.

Definition findUserByEmail (email : string) : M Db.t (option User.t) :=
  user.findUnique (user.by_email (toLowerCase email)).

Definition findUserById (id : Id) : M Db.t (option User.t) :=
  user.findUnique (user.by_id id).

Definition validatePassword (plainPassword : string) (hashedPassword : Hash)
  : bool :=
  bcrypt_compare plainPassword hashedPassword.

Definition updatePassword (now : Time) (userId : Id) (newPassword : string)
  : M Db.t unit :=
  found <- user.findUnique (user.by_id userId) ;;
  match found with
  | None => throw (NotFoundError "User not found")
  | Some _ =>
      if (String.length newPassword <? 8)%nat then
        throw (ValidationError "Password must be at least 8 characters long")
      else
        let saltRounds := 12%nat in
        user.update_password userId (bcrypt_hash newPassword saltRounds) now
  end.

Definition deleteUser (userId : Id) : M Db.t unit :=
  found <- user.findUnique (user.by_id userId) ;;
  match found with
  | None => throw (NotFoundError "User not found")
  | Some _ => user.delete userId
  end.
End UserService.

(** ** AuthService ([src/services/auth.service.ts]) *)

Module Identity.
(** [{ userId, email }], as [validateAccessToken] returns it and the
    middleware stores it in [request.user]. *)
Record t : Type := mk { userId : Id; email : option string }.
End Identity.

Section AuthService.
Variable config : Config.t.
Import RefreshTokenService UserService.

(** [`${Date.now()}-${Math.random().toString(36).substring(2)}`] *)
Definition newSessionId (env : Env.t) : string :=
  (string_of_Z (Env.clock env) ++ "-"
     ++ substring_from 2 (Env.random_sid env))%string.

Definition register (env : Env.t) (userData : RegisterRequest.t)
  : M Db.t (User.t * AuthTokens.t) :=
  user <- createUser (Env.clock env) userData ;;
  let tokens := generateTokens config env (User.id user) (User.email user) 1 in
  let refreshTokenExpiry := Env.clock env + SEVEN_DAYS in
  let sessionId := newSessionId env in
  createRefreshToken (Env.clock env) (AuthTokens.refreshToken tokens)
    (User.id user) 1 sessionId refreshTokenExpiry ;;;
  ret (user, tokens).

Definition login (env : Env.t) (credentials : LoginRequest.t)
  : M Db.t (User.t * AuthTokens.t) :=
  let email := LoginRequest.email credentials in
  let password := LoginRequest.password credentials in
  if String.eqb email EmptyString || String.eqb password EmptyString then
    throw (ValidationError "Email and password are required")
  else
    found <- findUserByEmail email ;;
    match found with
    | None => throw (AuthenticationError "Invalid email or password")
    | Some user =>
        if negb (validatePassword password (User.password user)) then
          throw (AuthenticationError "Invalid email or password")
        else
          tokenVersion <- getUserTokenVersion (User.id user) ;;
          let tokens :=
            generateTokens config env (User.id user) (User.email user)
              tokenVersion in
          let refreshTokenExpiry := Env.clock env + SEVEN_DAYS in
          let loginSessionId := newSessionId env in
          createRefreshToken (Env.clock env) (AuthTokens.refreshToken tokens)
            (User.id user) tokenVersion loginSessionId refreshTokenExpiry ;;;
          ret (user, tokens)
    end.

(** The callback handed to [$transaction] in [refreshToken].  Its reads and
    writes of session rows go through the transaction client; the user is
    read by [userService.findUserById], outside it, which sees the same
    users since the callback does not write any. *)
Definition refreshToken_body (env : Env.t) (refreshToken : Token)
  : M Db.t AuthTokens.t :=
  storedToken <-
    prisma.refreshToken.findUnique (prisma.refreshToken.by_token refreshToken) ;;
  match storedToken with
  | None => throw (AuthenticationError "Invalid or expired refresh token")
  | Some storedToken =>
      if RefreshTokenData.expiresAt storedToken <? Env.clock env then
        prisma.refreshToken.delete
          (prisma.refreshToken.by_id (RefreshTokenData.id storedToken)) ;;;
        throw (AuthenticationError "Refresh token has expired")
      else
        payload <- verifyRefreshToken config (Env.clock env) refreshToken ;;
        found <- findUserById (Claims.userId payload) ;;
        match found with
        | None => throw (AuthenticationError "User not found")
        | Some user =>
            if negb match Claims.tokenVersion payload with
                    | Some v => v =? RefreshTokenData.tokenVersion storedToken
                    | None => false
                    end
            then throw (AuthenticationError "Invalid refresh token version")
            else
              let newTokenVersion :=
                RefreshTokenData.tokenVersion storedToken + 1 in
              let tokens :=
                generateTokens config env (User.id user) (User.email user)
                  newTokenVersion in
              prisma.refreshToken.deleteMany
                (prisma.refreshToken.by_userId (User.id user)) ;;;
              let newRefreshTokenExpiry := Env.clock env + SEVEN_DAYS in
              let sessionId := newSessionId env in
              prisma.refreshToken.create (Env.clock env)
                (AuthTokens.refreshToken tokens) (User.id user)
                newTokenVersion sessionId newRefreshTokenExpiry ;;;
              ret tokens
        end
  end.

Definition refreshToken (env : Env.t) (token : Token) : M Db.t AuthTokens.t :=
  prisma.transaction (refreshToken_body env token).

Definition logout (userId : Id) : M Db.t unit :=
  deleteAllUserRefreshTokens userId.

Definition logoutAllDevices (userId : Id) : M Db.t unit := logout userId.

Definition validateAccessToken (clock : Time) (token : Token)
  : M Db.t Identity.t :=
  try_catch
    (payload <- verifyAccessToken config clock token ;;
     found <- findUserById (Claims.userId payload) ;;
     match found with
     | None => throw (AuthenticationError "User not found")
     | Some _ => ret (Identity.mk (Claims.userId payload) (Claims.email payload))
     end)
    (fun _ => throw (AuthenticationError "Invalid or expired access token")).

Definition changePassword (now : Time) (userId : Id)
  (currentPassword newPassword : string) : M Db.t unit :=
  found <- findUserById userId ;;
  match found with
  | None => throw (AuthenticationError "User not found")
  | Some user =>
      if negb (validatePassword currentPassword (User.password user)) then
        throw (AuthenticationError "Current password is incorrect")
      else
        updatePassword now userId newPassword ;;;
        logout userId
  end.
End AuthService.

(** ** The middleware ([src/middleware/auth.middleware.ts]) *)

(** The [Authorization] header: text that starts with ["Bearer "], kept as
    the token that follows it, or any other text. *)
Inductive Authorization : Type :=
| Bearer (token : Token)
| OtherScheme (text : string).

Module Request.
Record t : Type := mk {
  authorization : option Authorization;   (* [headers.authorization] *)
  cookie_accessToken : option Token;      (* [cookies.accessToken] *)
  user : option Identity.t
}.
Definition with_user (r : t) (u : option Identity.t) : t :=
  mk (authorization r) (cookie_accessToken r) u.
End Request.

(** [!token]: [undefined] and the empty text are falsy. *)
Definition falsy (token : option Token) : bool :=
  match token with
  | None => true
  | Some (Malformed EmptyString) => true
  | Some _ => false
  end.

Section Middleware.
Variable config : Config.t.

(** A service call made from a handler whose state is the request and the
    database. *)
Definition call {A} (m : M Db.t A) : M (Request.t * Db.t) A :=
  fun s =>
    match m (snd s) with
    | (o, db') => (o, (fst s, db'))
    end.

Definition set_user (u : option Identity.t) : M (Request.t * Db.t) unit :=
  modify_state (fun s => (Request.with_user (fst s) u, snd s)).

(** The token the handlers read: the bearer header first, the cookie when
    that gave nothing. *)
Definition presented (request : Request.t) : option Token :=
  let token :=
    match Request.authorization request with
    | Some (Bearer t) => Some t
    | _ => None
    end in
  if falsy token then Request.cookie_accessToken request else token.

Definition authenticate (clock : Time) : M (Request.t * Db.t) unit :=
  try_catch
    (s <- get_state ;;
     let token := presented (fst s) in
     match token with
     | Some t =>
         if falsy token then
           throw (AuthenticationError "Access token required")
         else
           user <- call (validateAccessToken config clock t) ;;
           set_user (Some user)
     | None => throw (AuthenticationError "Access token required")
     end)
    (fun _ => throw (AuthenticationError "Invalid or expired access token")).

Definition optionalAuthenticate (clock : Time) : M (Request.t * Db.t) unit :=
  try_catch
    (s <- get_state ;;
     let token := presented (fst s) in
     match token with
     | Some t =>
         if falsy token then ret tt
         else
           try_catch
             (user <- call (validateAccessToken config clock t) ;;
              set_user (Some user))
             (fun _ => set_user None)
     | None => ret tt
     end)
    (fun _ => set_user None).
End Middleware.

(** ** Calls, reachable stores and the record invariant *)

(** The operations the routes and services offer on the store. *)
Inductive Call : Type :=
| Register (userData : RegisterRequest.t)
| Login (credentials : LoginRequest.t)
| Refresh (token : Token)
| Logout (userId : Id)
| LogoutAllDevices (userId : Id)
| ChangePassword (userId : Id) (currentPassword newPassword : string)
| DeleteUser (userId : Id)
| FindRefreshToken (token : Token)
| CleanupAllExpiredTokens.

(** The store a call leaves behind, whether it returned or threw. *)
Definition after (config : Config.t) (env : Env.t) (c : Call) (db : Db.t) : Db.t :=
  match c with
  | Register d => snd (register config env d db)
  | Login d => snd (login config env d db)
  | Refresh t => snd (refreshToken config env t db)
  | Logout u => snd (logout u db)
  | LogoutAllDevices u => snd (logoutAllDevices u db)
  | ChangePassword u p q => snd (changePassword (Env.clock env) u p q db)
  | DeleteUser u => snd (UserService.deleteUser u db)
  | FindRefreshToken t =>
      snd (RefreshTokenService.findRefreshToken (Env.clock env) t db)
  | CleanupAllExpiredTokens =>
      snd (RefreshTokenService.cleanupAllExpiredTokens (Env.clock env) db)
  end.

Inductive reachable (config : Config.t) : Db.t -> Prop :=
| reachable_empty : reachable config Db.empty
| reachable_after db env c :
    reachable config db -> reachable config (after config env c db).

(** The store after a list of calls, each with its surroundings. *)
Definition run (config : Config.t) (calls : list (Env.t * Call)) (db : Db.t)
  : Db.t :=
  fold_left (fun d ec => after config (fst ec) (snd ec) d) calls db.

(** A session row agrees with the refresh token it stores: the token was
    signed with the refresh secret for the row's user and version. *)
Definition wf_row (config : Config.t) (r : RefreshTokenData.t) : bool :=
  match RefreshTokenData.token r with
  | Jws c key =>
      String.eqb key (Config.JWT_REFRESH_SECRET config)
      && N.eqb (Claims.userId c) (RefreshTokenData.userId r)
      && match Claims.tokenVersion c with
         | Some v => v =? RefreshTokenData.tokenVersion r
         | None => false
         end
  | Malformed _ => false
  end.

Definition store_wf (config : Config.t) (db : Db.t) : Prop :=
  forallb (wf_row config) (Db.refreshTokens db) = true.

(** A computation keeps the row invariant. *)
Definition keeps_wf (config : Config.t) {A} (m : M Db.t A) : Prop :=
  forall db, store_wf config db -> store_wf config (snd (m db)).

(** The rows of the store other than those of user [u]. *)
Definition rows_of_others (u : Id) (db : Db.t) : list RefreshTokenData.t :=
  filter (fun r => negb (prisma.refreshToken.by_userId u r)) (Db.refreshTokens db).

(** The session row a successful rotation of row [r] creates. *)
Definition rotated_row (config : Config.t) (env : Env.t) (db : Db.t)
  (r : RefreshTokenData.t) (email : string) : RefreshTokenData.t :=
  let newVersion := RefreshTokenData.tokenVersion r + 1 in
  RefreshTokenData.mk (Db.sequence db)
    (AuthTokens.refreshToken
       (generateTokens config env (RefreshTokenData.userId r) email newVersion))
    (RefreshTokenData.userId r) newVersion (newSessionId env)
    (Env.clock env + SEVEN_DAYS) (Env.clock env) (Env.clock env).

(** The largest element of a non-empty list, [1] standing in for a largest
    element [0] and for the empty list, as [getUserTokenVersion] reports. *)
Definition reported_version (versions : list Z) : Z :=
  match versions with
  | [] => 1
  | v :: rest =>
      let m := fold_right Z.max v rest in
      if m =? 0 then 1 else m
  end.

(** The rows of user [u] that have not expired at [now]. *)
Definition live_rows (now : Time) (u : Id) (db : Db.t) : list RefreshTokenData.t :=
  filter (fun r => prisma.refreshToken.by_userId u r
                   && negb (RefreshTokenData.expiresAt r <? now))
    (Db.refreshTokens db).

(** The message each failure of the taxonomy carries in the code. *)
Definition SessionNotFound : Exn :=
  AuthenticationError "Invalid or expired refresh token".
Definition RefreshTokenExpired : Exn :=
  AuthenticationError "Refresh token has expired".
Definition TokenInvalid : Exn :=
  AuthenticationError "Invalid or expired refresh token".
Definition UserNotFound : Exn := AuthenticationError "User not found".
Definition TokenVersionMismatch : Exn :=
  AuthenticationError "Invalid refresh token version".
Definition AccessDenied : Exn :=
  AuthenticationError "Invalid or expired access token".

(** ** A concrete run: one user registers, rotates, is deleted *)

Module Demo.
Definition config : Config.t :=
  Config.mk "access-secret-of-at-least-32-characters"
    "refresh-secret-of-at-least-32-characters" 900 604800 "test".

Definition at_register : Env.t := Env.mk 1000 5 "0.4fzyo82mvyr" "0.k3x9q1".
Definition at_rotate : Env.t := Env.mk 2000 6 "0.9d2hs7a1bcq" "0.p0w8z2".
Definition at_replay : Env.t := Env.mk 3000 7 "0.1c5vb3n8mzx" "0.t6r4e2".
(** The instant the row created at [at_register] expires, and one
    millisecond later. *)
Definition at_expiry : Env.t :=
  Env.mk (1000 + SEVEN_DAYS) 8 "0.7j4kd9s0aqw" "0.m1n2b3".
Definition past_expiry : Env.t :=
  Env.mk (1000 + SEVEN_DAYS + 1) 8 "0.7j4kd9s0aqw" "0.m1n2b3".
(** After the row created at [at_rotate] has expired. *)
Definition much_later : Env.t :=
  Env.mk (2000 + SEVEN_DAYS + 1) 9 "0.5g6h7j8k9l0" "0.v4c5x6".

Definition u1 : RegisterRequest.t :=
  RegisterRequest.mk "u1@example.com" "password-1".

(** The pair [register] hands to user u1 (key [0]) at [at_register]. *)
Definition pair1 : AuthTokens.t :=
  generateTokens config at_register 0%N "u1@example.com" 1.
Definition A1 : Token := AuthTokens.accessToken pair1.
Definition R1 : Token := AuthTokens.refreshToken pair1.

Definition registered : Db.t := after config at_register (Register u1) Db.empty.
Definition rotated : Db.t := after config at_rotate (Refresh R1) registered.
Definition deleted : Db.t := after config at_rotate (DeleteUser 0%N) registered.

(** The claims of [R1], the pair the rotation at [at_rotate] returns and
    the session row it creates. *)
Definition claims1 : Claims.t :=
  Claims.mk
    (Payload.mk 0%N None (Some 1) (Some (jti_of "refresh" at_register)))
    1 604801 "auth-api" "auth-client".
Definition pair2 : AuthTokens.t :=
  generateTokens config at_rotate 0%N "u1@example.com" 2.
Definition row2 : RefreshTokenData.t :=
  RefreshTokenData.mk 2%N (AuthTokens.refreshToken pair2) 0%N 2
    "2000-p0w8z2" (2000 + SEVEN_DAYS) 2000 2000.

(** The session row of [registered]. *)
Definition row1 : RefreshTokenData.t :=
  RefreshTokenData.mk 1%N R1 0%N 1 "1000-k3x9q1" (1000 + SEVEN_DAYS) 1000 1000.
Definition user1 : User.t :=
  User.mk 0%N "u1@example.com" (Bcrypt 12 "password-1") 1000 1000.
End Demo.

(** ** More of the services: profiles, error answers, handler guards *)

Module Profile.
(** [Omit<User, 'password'>] *)
Record t : Type := mk {
  id : Id;
  email : string;
  createdAt : Time;
  updatedAt : Time
}.
Definition of_user (u : User.t) : t :=
  mk (User.id u) (User.email u) (User.createdAt u) (User.updatedAt u).
End Profile.

(** [UserService.getUserProfile] *)
Definition getUserProfile (userId : Id) : M Db.t Profile.t :=
  found <- prisma.user.findUnique (prisma.user.by_id userId) ;;
  match found with
  | None => throw (NotFoundError "User not found")
  | Some user => ret (Profile.of_user user)
  end.

Module ApiError.
(** [{ statusCode, message, code }]; [details] is left out: no error the
    services construct carries any. *)
Record t : Type := mk {
  statusCode : Z;
  message : string;
  code : string
}.
End ApiError.

(** [formatError] ([src/utils/errors.ts]): an [AppError] answers with its
    own status, message and code; the two errors of [jsonwebtoken] are
    recognised by name; anything else, a database error here, is an internal
    error. *)
Definition formatError (error : Exn) : ApiError.t :=
  match error with
  | AuthenticationError m => ApiError.mk 401 m "AUTHENTICATION_ERROR"
  | ValidationError m => ApiError.mk 400 m "VALIDATION_ERROR"
  | ConflictError m => ApiError.mk 409 m "CONFLICT_ERROR"
  | NotFoundError m => ApiError.mk 404 m "NOT_FOUND_ERROR"
  | JsonWebTokenError _ => ApiError.mk 401 "Invalid token" "INVALID_TOKEN"
  | TokenExpiredError => ApiError.mk 401 "Token expired" "TOKEN_EXPIRED"
  | PrismaClientKnownRequestError _ =>
      ApiError.mk 500 "Internal server error" "INTERNAL_ERROR"
  end.

(** [requireRole(roles)] ([src/middleware/auth.middleware.ts]): the roles
    are not looked at. *)
Definition requireRole (roles : list string) : M (Request.t * Db.t) unit :=
  s <- get_state ;;
  match Request.user (fst s) with
  | None => throw (AuthenticationError "Authentication required")
  | Some _ => ret tt
  end.

(** ** Predicates the further properties are stated with *)

(** Versions start at [1]. *)
Definition version_positive (r : RefreshTokenData.t) : bool :=
  1 <=? RefreshTokenData.tokenVersion r.

Definition versions_positive (db : Db.t) : Prop :=
  forallb version_positive (Db.refreshTokens db) = true.

(** A computation started in a store whose rows all satisfy [P] leaves such
    a store, and a value it returns satisfies [Q]. *)
Definition ensures (P : RefreshTokenData.t -> bool) {A} (m : M Db.t A)
  (Q : A -> Prop) : Prop :=
  forall db,
    forallb P (Db.refreshTokens db) = true ->
    forallb P (Db.refreshTokens (snd (m db))) = true
    /\ forall a, fst (m db) = Return a -> Q a.

(** What the pattern [/^[^\s@]+@[^\s@]+\.[^\s@]+$/] says of a text: a local
    part, ["@"], a domain part, ["."], a last part, each non-empty and free
    of white space and ["@"]. *)
Definition email_shape (s : string) : Prop :=
  exists a b c : string,
    s = (a ++ "@" ++ b ++ "." ++ c)%string
    /\ a <> EmptyString /\ b <> EmptyString /\ c <> EmptyString
    /\ UserService.all_plain a = true
    /\ UserService.all_plain b = true
    /\ UserService.all_plain c = true.

(** The session rows of user [u]. *)
Definition rows_of (u : Id) (db : Db.t) : list RefreshTokenData.t :=
  filter (prisma.refreshToken.by_userId u) (Db.refreshTokens db).

(** The row is expired at [now], as every comparison in the code has it. *)
Definition expired (now : Time) (r : RefreshTokenData.t) : bool :=
  RefreshTokenData.expiresAt r <? now.

(** ** More of the concrete run: a second device, a second user *)

Module Sample.
(** A configuration that gives both kinds of token the same secret. *)
Definition shared : Config.t :=
  Config.mk "one-secret-of-at-least-32-characters"
    "one-secret-of-at-least-32-characters" 900 604800 "test".

Definition credentials : LoginRequest.t :=
  LoginRequest.mk "U1@Example.com" "password-1".
Definition wrong_password : LoginRequest.t :=
  LoginRequest.mk "u1@example.com" "password-2".

(** User u1 logs in on a second device at [Demo.at_rotate]. *)
Definition second : AuthTokens.t :=
  generateTokens Demo.config Demo.at_rotate 0%N "u1@example.com" 1.
Definition two_devices : Db.t :=
  after Demo.config Demo.at_rotate (Login credentials) Demo.registered.
Definition row_second : RefreshTokenData.t :=
  RefreshTokenData.mk 2%N (AuthTokens.refreshToken second) 0%N 1
    "2000-p0w8z2" (2000 + SEVEN_DAYS) 2000 2000.

Definition u2 : RegisterRequest.t :=
  RegisterRequest.mk "u2@example.com" "password-2".

(** A request that carries the access token of u1 as a bearer token. *)
Definition bearer : Request.t :=
  Request.mk (Some (Bearer Demo.A1)) None None.
End Sample.


(** ** The two halves of a rotation, and two rotations that overlap *)

(** The first half of the callback of [refreshToken]: the lookup and the
    checks of expiry, signature, user and version.  It hands on the stored
    row and the user. *)
Definition rotate_checks (config : Config.t) (env : Env.t) (refreshToken : Token)
  : M Db.t (RefreshTokenData.t * User.t) :=
  storedToken <-
    prisma.refreshToken.findUnique (prisma.refreshToken.by_token refreshToken) ;;
  match storedToken with
  | None => throw (AuthenticationError "Invalid or expired refresh token")
  | Some storedToken =>
      if RefreshTokenData.expiresAt storedToken <? Env.clock env then
        prisma.refreshToken.delete
          (prisma.refreshToken.by_id (RefreshTokenData.id storedToken)) ;;;
        throw (AuthenticationError "Refresh token has expired")
      else
        payload <- verifyRefreshToken config (Env.clock env) refreshToken ;;
        found <- UserService.findUserById (Claims.userId payload) ;;
        match found with
        | None => throw (AuthenticationError "User not found")
        | Some user =>
            if negb match Claims.tokenVersion payload with
                    | Some v => v =? RefreshTokenData.tokenVersion storedToken
                    | None => false
                    end
            then throw (AuthenticationError "Invalid refresh token version")
            else ret (storedToken, user)
        end
  end.

(** The second half: issue the pair, delete the user's rows, insert the
    new row, return the pair. *)
Definition rotate_writes (config : Config.t) (env : Env.t)
  (storedToken : RefreshTokenData.t) (user : User.t) : M Db.t AuthTokens.t :=
  let newTokenVersion := RefreshTokenData.tokenVersion storedToken + 1 in
  let tokens :=
    generateTokens config env (User.id user) (User.email user) newTokenVersion in
  prisma.refreshToken.deleteMany
    (prisma.refreshToken.by_userId (User.id user)) ;;;
  let newRefreshTokenExpiry := Env.clock env + SEVEN_DAYS in
  let sessionId := newSessionId env in
  prisma.refreshToken.create (Env.clock env)
    (AuthTokens.refreshToken tokens) (User.id user)
    newTokenVersion sessionId newRefreshTokenExpiry ;;;
  ret tokens.

(** Two calls of [refreshToken], A and B, whose transactions overlap: both
    callbacks have made their reads before either writes; then A writes and
    commits, then B writes and commits.  [$transaction] is called without an
    isolation level and the callback takes no lock, so each statement sees
    what was committed before it (read committed, the default of the
    database); a callback that throws undoes its own writes only.  A callback
    whose reads fail takes no part in the overlap: the other call runs as
    [refreshToken] does. *)
Definition overlapped (config : Config.t) (envA envB : Env.t)
  (tokenA tokenB : Token) (db : Db.t)
  : (Outcome AuthTokens.t * Outcome AuthTokens.t) * Db.t :=
  match rotate_checks config envA tokenA db with
  | (Throw e, _) =>
      let (oB, db') := refreshToken config envB tokenB db in
      ((Throw e, oB), db')
  | (Return (storedA, userA), _) =>
      match rotate_checks config envB tokenB db with
      | (Throw e, _) =>
          let (oA, db') := refreshToken config envA tokenA db in
          ((oA, Throw e), db')
      | (Return (storedB, userB), _) =>
          let (oA, dbA) :=
            prisma.transaction (rotate_writes config envA storedA userA) db in
          let (oB, dbB) :=
            prisma.transaction (rotate_writes config envB storedB userB) dbA in
          ((oA, oB), dbB)
      end
  end.

(** ** The concrete run with two users *)

Module Collision.
Definition early : Env.t := Env.mk 500 4 "0.b7c1d2e3f4g5" "0.q9w8e7".

(** User u2 registers at [early], user u1 at [Demo.at_register]. *)
Definition two_users : Db.t :=
  after Demo.config Demo.at_register (Register Demo.u1)
    (after Demo.config early (Register Sample.u2) Db.empty).

Definition pair_u2 : AuthTokens.t :=
  generateTokens Demo.config early 0%N "u2@example.com" 1.
Definition R_u2 : Token := AuthTokens.refreshToken pair_u2.
Definition claims_u2 : Claims.t :=
  Claims.mk
    (Payload.mk 0%N None (Some 1) (Some (jti_of "refresh" early)))
    0 604800 "auth-api" "auth-client".
Definition user_u2 : User.t :=
  User.mk 0%N "u2@example.com" (Bcrypt 12 "password-2") 500 500.
Definition row_u2 : RefreshTokenData.t :=
  RefreshTokenData.mk 1%N R_u2 0%N 1 "500-q9w8e7" (500 + SEVEN_DAYS) 500 500.

(** The row of u1 in [two_users]; its session id is the one a call at
    [collide] generates. *)
Definition row_u1 : RefreshTokenData.t :=
  RefreshTokenData.mk 3%N
    (AuthTokens.refreshToken
       (generateTokens Demo.config Demo.at_register 2%N "u1@example.com" 1))
    2%N 1 "1000-k3x9q1" (1000 + SEVEN_DAYS) 1000 1000.
Definition collide : Env.t := Env.mk 1000 11 "0.3e4r5t6y7u8i" "0.k3x9q1".

(** A configuration whose refresh tokens live one hour. *)
Definition one_hour : Config.t :=
  Config.mk "access-secret-of-at-least-32-characters"
    "refresh-secret-of-at-least-32-characters" 900 3600 "test".
Definition registered_one_hour : Db.t :=
  after one_hour Demo.at_register (Register Demo.u1) Db.empty.
Definition R1_one_hour : Token :=
  AuthTokens.refreshToken
    (generateTokens one_hour Demo.at_register 0%N "u1@example.com" 1).
End Collision.

(** * Properties *)

(** ** Lists and token equality *)

Lemma Token_eqb_eq (x y : Token) : Token_eqb x y = true <-> x = y.
Proof.
  unfold Token_eqb. destruct (Token_eq_dec x y); split; congruence.
Qed.

Lemma Token_eqb_refl (x : Token) : Token_eqb x x = true.
Proof. apply Token_eqb_eq. reflexivity. Qed.

Lemma forallb_filter {A} (p q : A -> bool) (l : list A) :
  forallb p l = true -> forallb p (filter q l) = true.
Proof.
  induction l as [|a l IH]; simpl; intros H; [reflexivity|].
  apply andb_true_iff in H. destruct H as [Ha Hl].
  destruct (q a); simpl; [rewrite Ha|]; auto.
Qed.

Lemma forallb_snoc {A} (p : A -> bool) (l : list A) (a : A) :
  forallb p l = true -> p a = true -> forallb p (l ++ [a]) = true.
Proof.
  intros Hl Ha. rewrite forallb_app, Hl. simpl. rewrite Ha. reflexivity.
Qed.

Lemma existsb_false_forall {A} (p : A -> bool) (l : list A) :
  (forall a, In a l -> p a = false) -> existsb p l = false.
Proof.
  induction l as [|b l IH]; simpl; intros H; [reflexivity|].
  rewrite (H b (or_introl eq_refl)). simpl. apply IH. auto.
Qed.

Lemma find_existsb {A} (p : A -> bool) (l : list A) (a : A) :
  find p l = Some a -> existsb p l = true.
Proof.
  intros H. apply find_some in H. apply existsb_exists. exists a. exact H.
Qed.

Lemma find_filter_none {A} (p q : A -> bool) (l : list A) :
  (forall a, In a l -> p a = true -> q a = false) ->
  find p (filter q l) = None.
Proof.
  intros H. destruct (find p (filter q l)) as [a|] eqn:E; [|reflexivity].
  apply find_some in E. destruct E as [Hin Hp].
  apply filter_In in Hin. destruct Hin as [Hin Hq].
  rewrite (H a Hin Hp) in Hq. discriminate.
Qed.

(** ** The row invariant is kept by every operation *)

Create HintDb wf.

Section KeepsWf.
Variable config : Config.t.

Lemma keeps_ret {A} (a : A) : keeps_wf config (ret a).
Proof. intros db H. exact H. Qed.

Lemma keeps_throw {A} (e : Exn) : keeps_wf config (@throw Db.t A e).
Proof. intros db H. exact H. Qed.

Lemma keeps_bind {A B} (m : M Db.t A) (k : A -> M Db.t B) :
  keeps_wf config m -> (forall a, keeps_wf config (k a)) ->
  keeps_wf config (bind m k).
Proof.
  intros Hm Hk db H. unfold bind. specialize (Hm db H).
  destruct (m db) as [[a|e] db']; simpl in *; [apply Hk|]; assumption.
Qed.

Lemma keeps_try_catch {A} (m : M Db.t A) (h : Exn -> M Db.t A) :
  keeps_wf config m -> (forall e, keeps_wf config (h e)) ->
  keeps_wf config (try_catch m h).
Proof.
  intros Hm Hh db H. unfold try_catch. specialize (Hm db H).
  destruct (m db) as [[a|e] db']; simpl in *; [|apply Hh]; assumption.
Qed.

Lemma keeps_transaction {A} (m : M Db.t A) :
  keeps_wf config m -> keeps_wf config (prisma.transaction m).
Proof.
  intros Hm db H. unfold prisma.transaction. specialize (Hm db H).
  destruct (m db) as [[a|e] db']; simpl in *; assumption.
Qed.

Lemma keeps_token_findUnique w : keeps_wf config (prisma.refreshToken.findUnique w).
Proof. intros db H. exact H. Qed.

Lemma keeps_token_findFirst w :
  keeps_wf config (prisma.refreshToken.findFirst_tokenVersion_desc w).
Proof. intros db H. exact H. Qed.

Lemma keeps_token_deleteMany w : keeps_wf config (prisma.refreshToken.deleteMany w).
Proof. intros db H. apply forallb_filter. exact H. Qed.

Lemma keeps_token_delete w : keeps_wf config (prisma.refreshToken.delete w).
Proof.
  intros db H. unfold prisma.refreshToken.delete.
  destruct (existsb w (Db.refreshTokens db)); simpl; [|exact H].
  apply forallb_filter. exact H.
Qed.

(** A row made of a refresh token from [generateTokens] and the user and
    version the token was issued for satisfies the invariant. *)
Lemma wf_row_issued env uid mail v i sid ex c u :
  wf_row config
    (RefreshTokenData.mk i
       (AuthTokens.refreshToken (generateTokens config env uid mail v))
       uid v sid ex c u) = true.
Proof.
  unfold wf_row, generateTokens, generateRefreshToken, jwt_sign,
    refreshTokenSecret, Claims.userId, Claims.tokenVersion. simpl.
  rewrite String.eqb_refl, N.eqb_refl, Z.eqb_refl. reflexivity.
Qed.

Lemma keeps_token_create now env uid mail v sid ex :
  keeps_wf config
    (prisma.refreshToken.create now
       (AuthTokens.refreshToken (generateTokens config env uid mail v))
       uid v sid ex).
Proof.
  intros db H. unfold prisma.refreshToken.create.
  destruct (_ || _); [exact H|].
  destruct (negb _); [exact H|].
  unfold store_wf. cbn [snd Db.refreshTokens].
  apply forallb_snoc; [exact H | apply wf_row_issued].
Qed.

Lemma keeps_user_findUnique w : keeps_wf config (prisma.user.findUnique w).
Proof. intros db H. exact H. Qed.

Lemma keeps_user_create now mail pw : keeps_wf config (prisma.user.create now mail pw).
Proof.
  intros db H. unfold prisma.user.create.
  destruct (existsb _ _); simpl; exact H.
Qed.

Lemma keeps_user_update i pw t : keeps_wf config (prisma.user.update_password i pw t).
Proof.
  intros db H. unfold prisma.user.update_password.
  destruct (existsb _ _); simpl; exact H.
Qed.

Lemma keeps_user_delete i : keeps_wf config (prisma.user.delete i).
Proof.
  intros db H. unfold prisma.user.delete.
  destruct (existsb _ _); simpl; [|exact H].
  apply forallb_filter. exact H.
Qed.
End KeepsWf.

#[local] Hint Resolve keeps_ret keeps_throw keeps_transaction
  keeps_token_findUnique keeps_token_findFirst keeps_token_deleteMany
  keeps_token_delete keeps_token_create keeps_user_findUnique
  keeps_user_create keeps_user_update keeps_user_delete : wf.

(** Walks through a method: sequencing, handlers and branches. *)
Ltac keeps :=
  repeat first
    [ solve [eauto with wf]
    | apply keeps_bind; [|intros ?]
    | apply keeps_try_catch; [|intros ?]
    | apply keeps_transaction
    | match goal with
      | |- keeps_wf _ (if ?b then _ else _) => destruct b
      | |- keeps_wf _ (match ?x with _ => _ end) => destruct x
      end ].

Section ServicesKeepWf.
Variable config : Config.t.
Import RefreshTokenService UserService.

Lemma keeps_createRefreshToken now env uid mail v sid ex :
  keeps_wf config
    (createRefreshToken now
       (AuthTokens.refreshToken (generateTokens config env uid mail v))
       uid v sid ex).
Proof. unfold createRefreshToken, cleanupExpiredTokens. keeps. Qed.

Lemma keeps_findRefreshToken now t : keeps_wf config (findRefreshToken now t).
Proof. unfold findRefreshToken, deleteRefreshToken. keeps. Qed.

Lemma keeps_createUser now d : keeps_wf config (createUser now d).
Proof. unfold createUser. keeps. Qed.

Lemma keeps_register env d : keeps_wf config (register config env d).
Proof.
  unfold register. keeps; auto using keeps_createUser.
Qed.

Lemma keeps_login env d : keeps_wf config (login config env d).
Proof.
  unfold login, findUserByEmail, getUserTokenVersion.
  keeps.
Qed.

Lemma keeps_refreshToken env t : keeps_wf config (refreshToken config env t).
Proof.
  unfold refreshToken, refreshToken_body, verifyRefreshToken, findUserById.
  keeps.
Qed.

Lemma keeps_logout u : keeps_wf config (logout u).
Proof. unfold logout, deleteAllUserRefreshTokens. keeps. Qed.

Lemma keeps_changePassword now u p q : keeps_wf config (changePassword now u p q).
Proof.
  unfold changePassword, findUserById, updatePassword.
  keeps.
Qed.

Lemma keeps_deleteUser u : keeps_wf config (deleteUser u).
Proof. unfold deleteUser. keeps. Qed.

Lemma keeps_after env c db :
  store_wf config db -> store_wf config (after config env c db).
Proof.
  intros H. destruct c; simpl.
  - apply keeps_register, H.
  - apply keeps_login, H.
  - apply keeps_refreshToken, H.
  - apply keeps_logout, H.
  - apply keeps_logout, H.
  - apply keeps_changePassword, H.
  - apply keeps_deleteUser, H.
  - apply keeps_findRefreshToken, H.
  - unfold RefreshTokenService.cleanupAllExpiredTokens, cleanupExpiredTokens.
    apply keeps_token_deleteMany, H.
Qed.

Lemma reachable_wf db : reachable config db -> store_wf config db.
Proof.
  induction 1 as [|db env c _ IH]; [reflexivity|].
  apply keeps_after, IH.
Qed.
End ServicesKeepWf.

(** ** Rotation: the path through every check *)

Section Rotation.
Variable config : Config.t.
Import RefreshTokenData.

Lemma lookup_token rows tok r :
  find (prisma.refreshToken.by_token tok) rows = Some r ->
  In r rows /\ token r = tok.
Proof.
  intros H. apply find_some in H. destruct H as [Hin Hp].
  split; [exact Hin|]. apply Token_eqb_eq. exact Hp.
Qed.

Lemma jwt_verify_inr clock tok secret iss aud c :
  jwt_verify clock tok secret iss aud = inr c ->
  tok = Jws c secret /\ clock / 1000 < Claims.exp c.
Proof.
  unfold jwt_verify. destruct tok as [c' key|text]; [|discriminate].
  destruct (String.eqb_spec key secret); simpl; [|discriminate].
  destruct (Z.leb_spec (Claims.exp c') (clock / 1000)); [discriminate|].
  destruct (negb _); [discriminate|].
  destruct (negb _); [discriminate|].
  intros E. injection E as <-. subst key. split; [reflexivity|assumption].
Qed.

Lemma wf_row_claims r c secret :
  wf_row config r = true -> token r = Jws c secret ->
  Claims.userId c = userId r /\ Claims.tokenVersion c = Some (tokenVersion r).
Proof.
  unfold wf_row. intros H E. rewrite E in H.
  apply andb_true_iff in H. destruct H as [H Hv].
  apply andb_true_iff in H. destruct H as [_ Hu].
  apply N.eqb_eq in Hu. split; [exact Hu|].
  destruct (Claims.tokenVersion c) as [v|]; [|discriminate].
  apply Z.eqb_eq in Hv. congruence.
Qed.

Lemma store_wf_row db r :
  store_wf config db -> In r (Db.refreshTokens db) -> wf_row config r = true.
Proof. intros H Hin. exact (proj1 (forallb_forall _ _) H r Hin). Qed.

(** No row of another user stores a refresh token issued for [uid]. *)
Lemma issued_token_unused env db uid mail v :
  store_wf config db ->
  existsb
    (prisma.refreshToken.by_token
       (AuthTokens.refreshToken (generateTokens config env uid mail v)))
    (rows_of_others uid db) = false.
Proof.
  intros Hwf. apply existsb_false_forall. intros x Hx.
  apply filter_In in Hx. destruct Hx as [Hin Hne].
  destruct (prisma.refreshToken.by_token _ x) eqn:E; [|reflexivity].
  apply Token_eqb_eq in E.
  destruct (wf_row_claims x _ _ (store_wf_row db x Hwf Hin) E) as [Hu _].
  unfold prisma.refreshToken.by_userId in Hne.
  rewrite <- Hu in Hne. cbn in Hne. rewrite N.eqb_refl in Hne. discriminate.
Qed.

Lemma rotation_succeeds env db tok r c u :
  store_wf config db ->
  find (prisma.refreshToken.by_token tok) (Db.refreshTokens db) = Some r ->
  (expiresAt r <? Env.clock env) = false ->
  jwt_verify (Env.clock env) tok (Config.JWT_REFRESH_SECRET config)
    "auth-api" "auth-client" = inr c ->
  find (prisma.user.by_id (Claims.userId c)) (Db.users db) = Some u ->
  existsb (prisma.refreshToken.by_sessionId (newSessionId env))
    (rows_of_others (userId r) db) = false ->
  refreshToken config env tok db =
    (Return (generateTokens config env (userId r) (User.email u)
               (tokenVersion r + 1)),
     Db.mk (Db.users db)
       (rows_of_others (userId r) db
          ++ [rotated_row config env db r (User.email u)])
       (N.succ (Db.sequence db))).
Proof.
  intros Hwf Hfind Hlive Hver Huser Hsid.
  destruct (lookup_token _ _ _ Hfind) as [Hin Htok].
  destruct (jwt_verify_inr _ _ _ _ _ _ Hver) as [Hjws _].
  destruct (wf_row_claims r c _ (store_wf_row db r Hwf Hin)
              (eq_trans Htok Hjws)) as [Hcu Hcv].
  assert (Hid : User.id u = userId r).
  { apply find_some in Huser. destruct Huser as [_ Hp].
    apply N.eqb_eq in Hp. congruence. }
  assert (Hfk : existsb (fun x => N.eqb (User.id x) (userId r)) (Db.users db) = true).
  { rewrite <- Hcu. exact (find_existsb _ _ _ Huser). }
  unfold refreshToken, prisma.transaction, refreshToken_body.
  unfold bind at 1. unfold prisma.refreshToken.findUnique at 1.
  rewrite Hfind, Hlive.
  unfold bind at 1. unfold verifyRefreshToken, refreshTokenSecret.
  rewrite Hver. unfold ret at 1.
  unfold bind at 1. unfold UserService.findUserById, prisma.user.findUnique.
  rewrite Huser, Hcv, Z.eqb_refl, Hid. cbn [negb].
  unfold bind at 1. unfold prisma.refreshToken.deleteMany.
  unfold bind at 1. unfold prisma.refreshToken.create.
  cbn [Db.refreshTokens Db.with_refreshTokens Db.users Db.sequence].
  fold (rows_of_others (userId r) db).
  rewrite (issued_token_unused env db (userId r) (User.email u) _ Hwf), Hsid.
  cbn [orb]. rewrite Hfk. cbn [negb]. reflexivity.
Qed.
End Rotation.

Lemma find_none_intro {A} (p : A -> bool) (l : list A) :
  (forall a, In a l -> p a = false) -> find p l = None.
Proof.
  intros H. destruct (find p l) as [a|] eqn:E; [|reflexivity].
  apply find_some in E. destruct E as [Hin Hp].
  rewrite (H a Hin) in Hp. discriminate.
Qed.


(** The callback alone, on an expired row: the row is deleted before the
    error is thrown. *)
Lemma expired_body_deletes config env db tok r :
  find (prisma.refreshToken.by_token tok) (Db.refreshTokens db) = Some r ->
  RefreshTokenData.expiresAt r < Env.clock env ->
  refreshToken_body config env tok db =
    (Throw RefreshTokenExpired,
     Db.with_refreshTokens db
       (filter (fun x => negb (prisma.refreshToken.by_id (RefreshTokenData.id r) x))
          (Db.refreshTokens db))).
Proof.
  intros Hfind Hexp.
  assert (Hin : existsb (prisma.refreshToken.by_id (RefreshTokenData.id r))
                  (Db.refreshTokens db) = true).
  { apply existsb_exists. exists r. split.
    - apply find_some in Hfind. tauto.
    - apply N.eqb_refl. }
  unfold refreshToken_body.
  unfold bind at 1. unfold prisma.refreshToken.findUnique at 1.
  rewrite Hfind. rewrite (proj2 (Z.ltb_lt _ _) Hexp).
  unfold bind, prisma.refreshToken.delete. rewrite Hin. reflexivity.
Qed.

Lemma expired_rotation_rolls_back config env db tok r :
  find (prisma.refreshToken.by_token tok) (Db.refreshTokens db) = Some r ->
  RefreshTokenData.expiresAt r < Env.clock env ->
  refreshToken config env tok db = (Throw RefreshTokenExpired, db).
Proof.
  intros Hfind Hexp. unfold refreshToken, prisma.transaction.
  rewrite (expired_body_deletes config env db tok r Hfind Hexp). reflexivity.
Qed.

(** ** The concrete run *)

Lemma demo_register :
  register Demo.config Demo.at_register Demo.u1 Db.empty =
    (Return (Demo.user1, Demo.pair1), Db.mk [Demo.user1] [Demo.row1] 2%N).
Proof. vm_compute. reflexivity. Qed.

Lemma demo_registered : Demo.registered = Db.mk [Demo.user1] [Demo.row1] 2%N.
Proof. vm_compute. reflexivity. Qed.

(** ** Rotation: what a successful call does, and a repeated one *)

Lemma filter_others_nil u db :
  filter (prisma.refreshToken.by_userId u) (rows_of_others u db) = [].
Proof.
  unfold rows_of_others. induction (Db.refreshTokens db) as [|a l IH];
    [reflexivity|].
  simpl. destruct (prisma.refreshToken.by_userId u a) eqn:E; simpl;
    [|rewrite E]; exact IH.
Qed.

Lemma not_in_others u db r :
  RefreshTokenData.userId r = u -> ~ In r (rows_of_others u db).
Proof.
  intros Hu Hin. apply filter_In in Hin. destruct Hin as [_ Hne].
  unfold prisma.refreshToken.by_userId in Hne.
  rewrite Hu, N.eqb_refl in Hne. discriminate.
Qed.

(** The same path when the session id generated for the call is already the
    session id of a row that stays: the insert is refused and the
    transaction is rolled back. *)
Lemma rotation_collides config env db tok r c u :
  store_wf config db ->
  find (prisma.refreshToken.by_token tok) (Db.refreshTokens db) = Some r ->
  (RefreshTokenData.expiresAt r <? Env.clock env) = false ->
  jwt_verify (Env.clock env) tok (Config.JWT_REFRESH_SECRET config)
    "auth-api" "auth-client" = inr c ->
  find (prisma.user.by_id (Claims.userId c)) (Db.users db) = Some u ->
  existsb (prisma.refreshToken.by_sessionId (newSessionId env))
    (rows_of_others (RefreshTokenData.userId r) db) = true ->
  refreshToken config env tok db = (Throw prisma.P2002, db).
Proof.
  intros Hwf Hfind Hlive Hver Huser Hsid.
  destruct (lookup_token _ _ _ Hfind) as [Hin Htok].
  destruct (jwt_verify_inr _ _ _ _ _ _ Hver) as [Hjws _].
  destruct (wf_row_claims config r c _ (store_wf_row config db r Hwf Hin)
              (eq_trans Htok Hjws)) as [Hcu Hcv].
  assert (Hid : User.id u = RefreshTokenData.userId r).
  { apply find_some in Huser. destruct Huser as [_ Hp].
    apply N.eqb_eq in Hp. congruence. }
  unfold refreshToken, prisma.transaction, refreshToken_body.
  unfold bind at 1. unfold prisma.refreshToken.findUnique at 1.
  rewrite Hfind, Hlive.
  unfold bind at 1. unfold verifyRefreshToken, refreshTokenSecret.
  rewrite Hver. unfold ret at 1.
  unfold bind at 1. unfold UserService.findUserById, prisma.user.findUnique.
  rewrite Huser, Hcv, Z.eqb_refl, Hid. cbn [negb].
  unfold bind at 1. unfold prisma.refreshToken.deleteMany.
  unfold bind at 1. unfold prisma.refreshToken.create.
  cbn [Db.refreshTokens Db.with_refreshTokens Db.users Db.sequence].
  fold (rows_of_others (RefreshTokenData.userId r) db).
  rewrite Hsid, orb_true_r. reflexivity.
Qed.

(** C1, amended.  For every stored session row that passes all of
    rotation's checks (it is found by the presented token, has not expired,
    its token verifies, its user exists, and the versions agree, which the
    row invariant gives), the pair is issued at the row's version plus one,
    with the configured lifetime in the refresh token.  When the session id
    generated for the call is not the session id of a row of another user,
    the rotation returns that pair, deletes every session row of the user
    and creates exactly one row: the new refresh token, the new version,
    the generated session id, and [expiresAt = now + SEVEN_DAYS], seven days
    whatever lifetime is configured.  When the generated session id is in
    use, the rotation throws the database's unique-constraint error and the
    store is as before. *)
Theorem rotate_step_effect config env db tok r c u :
  store_wf config db ->
  find (prisma.refreshToken.by_token tok) (Db.refreshTokens db) = Some r ->
  (RefreshTokenData.expiresAt r <? Env.clock env) = false ->
  jwt_verify (Env.clock env) tok (Config.JWT_REFRESH_SECRET config)
    "auth-api" "auth-client" = inr c ->
  find (prisma.user.by_id (Claims.userId c)) (Db.users db) = Some u ->
  let newVersion := RefreshTokenData.tokenVersion r + 1 in
  let tokens :=
    generateTokens config env (RefreshTokenData.userId r) (User.email u)
      newVersion in
  let row :=
    RefreshTokenData.mk (Db.sequence db) (AuthTokens.refreshToken tokens)
      (RefreshTokenData.userId r) newVersion (newSessionId env)
      (Env.clock env + SEVEN_DAYS) (Env.clock env) (Env.clock env) in
  let db' := snd (refreshToken config env tok db) in
  let session_id_in_use :=
    existsb (prisma.refreshToken.by_sessionId (newSessionId env))
      (rows_of_others (RefreshTokenData.userId r) db) in
  Claims.tokenVersion c = Some (RefreshTokenData.tokenVersion r)
  /\ option_map Claims.tokenVersion (decodeToken (AuthTokens.refreshToken tokens))
     = Some (Some newVersion)
  /\ option_map Claims.exp (decodeToken (AuthTokens.refreshToken tokens))
     = Some (Env.clock env / 1000 + Config.JWT_REFRESH_EXPIRES_IN config)
  /\ (session_id_in_use = false ->
      fst (refreshToken config env tok db) = Return tokens
      /\ Db.refreshTokens db' =
           filter (fun x => negb (N.eqb (RefreshTokenData.userId x)
                                    (RefreshTokenData.userId r)))
             (Db.refreshTokens db) ++ [row]
      /\ filter (prisma.refreshToken.by_userId (RefreshTokenData.userId r))
           (Db.refreshTokens db') = [row]
      /\ ~ In r (Db.refreshTokens db')
      /\ Db.users db' = Db.users db)
  /\ (session_id_in_use = true ->
      refreshToken config env tok db = (Throw prisma.P2002, db)).
Proof.
  intros Hwf Hfind Hlive Hver Huser newVersion tokens row db' session_id_in_use.
  destruct (lookup_token _ _ _ Hfind) as [Hin Htok].
  destruct (jwt_verify_inr _ _ _ _ _ _ Hver) as [Hjws _].
  destruct (wf_row_claims config r c _ (store_wf_row config db r Hwf Hin)
              (eq_trans Htok Hjws)) as [_ Hcv].
  split; [exact Hcv|]. split; [reflexivity|]. split; [reflexivity|]. split.
  - intros Hsid.
    pose proof (rotation_succeeds config env db tok r c u
                  Hwf Hfind Hlive Hver Huser Hsid) as Hrun.
    subst db'. rewrite Hrun. cbn [fst snd Db.refreshTokens Db.users].
    change (rotated_row config env db r (User.email u)) with row.
    split; [reflexivity|]. split; [reflexivity|].
    split; [|split; [|reflexivity]].
    + rewrite filter_app, filter_others_nil. cbn [filter app].
      unfold prisma.refreshToken.by_userId, row. cbn [RefreshTokenData.userId].
      rewrite N.eqb_refl. reflexivity.
    + intros Hr. apply in_app_or in Hr. destruct Hr as [Hr|[Hr|[]]].
      * exact (not_in_others _ db r eq_refl Hr).
      * apply (f_equal RefreshTokenData.tokenVersion) in Hr.
        unfold row, newVersion in Hr. cbn [RefreshTokenData.tokenVersion] in Hr.
        lia.
  - intros Hsid.
    exact (rotation_collides config env db tok r c u
             Hwf Hfind Hlive Hver Huser Hsid).
Qed.

Lemma rotate_step_effect_witness :
  (fst (refreshToken Demo.config Demo.at_rotate Collision.R_u2
          Collision.two_users)
   = Return (generateTokens Demo.config Demo.at_rotate 0%N "u2@example.com" 2)
   /\ Db.refreshTokens
        (snd (refreshToken Demo.config Demo.at_rotate Collision.R_u2
                Collision.two_users))
      = [Collision.row_u1;
         RefreshTokenData.mk 4%N
           (AuthTokens.refreshToken
              (generateTokens Demo.config Demo.at_rotate 0%N "u2@example.com" 2))
           0%N 2 "2000-p0w8z2" (2000 + SEVEN_DAYS) 2000 2000])
  /\ refreshToken Demo.config Collision.collide Collision.R_u2
       Collision.two_users
     = (Throw prisma.P2002, Collision.two_users).
Proof.
  split.
  - destruct (rotate_step_effect Demo.config Demo.at_rotate Collision.two_users
                Collision.R_u2 Collision.row_u2 Collision.claims_u2
                Collision.user_u2)
      as (_ & _ & _ & Hfresh & _); try (vm_compute; reflexivity).
    assert (Hfree :
      existsb (prisma.refreshToken.by_sessionId (newSessionId Demo.at_rotate))
        (rows_of_others (RefreshTokenData.userId Collision.row_u2)
           Collision.two_users) = false) by (vm_compute; reflexivity).
    destruct (Hfresh Hfree) as (Hret & Hrows & _).
    split; [exact Hret | exact Hrows].
  - refine (proj2 (proj2 (proj2 (proj2
              (rotate_step_effect Demo.config Collision.collide
                 Collision.two_users Collision.R_u2 Collision.row_u2
                 Collision.claims_u2 Collision.user_u2 _ _ _ _ _)))) _);
      vm_compute; reflexivity.
Defined.

(** C1 as stated fails.  In [Collision.two_users], a reachable store, the
    row of u2 passes every check at [Collision.collide], and the call
    creates no row and returns no pair: the session id it generates is the
    one of u1's row.  And with refresh tokens that live one hour the row a
    rotation creates still expires seven days after the call, while the
    token it stores expires after the hour. *)
Lemma rotation_meets_used_session_id :
  (reachable Demo.config Collision.two_users
   /\ find (prisma.refreshToken.by_token Collision.R_u2)
        (Db.refreshTokens Collision.two_users) = Some Collision.row_u2
   /\ rotate_checks Demo.config Collision.collide Collision.R_u2
        Collision.two_users
      = (Return (Collision.row_u2, Collision.user_u2), Collision.two_users)
   /\ refreshToken Demo.config Collision.collide Collision.R_u2
        Collision.two_users
      = (Throw prisma.P2002, Collision.two_users))
  /\ (map RefreshTokenData.expiresAt
        (Db.refreshTokens
           (snd (refreshToken Collision.one_hour Demo.at_rotate
                   Collision.R1_one_hour Collision.registered_one_hour)))
      = [2000 + SEVEN_DAYS]
      /\ map (fun x => getTokenExpiry (RefreshTokenData.token x))
           (Db.refreshTokens
              (snd (refreshToken Collision.one_hour Demo.at_rotate
                      Collision.R1_one_hour Collision.registered_one_hour)))
         = [Some (2000 + 3600 * 1000)]).
Proof.
  split; [split; [|split; [|split]] | split].
  - unfold Collision.two_users.
    apply reachable_after, reachable_after, reachable_empty.
  - vm_compute. reflexivity.
  - vm_compute. reflexivity.
  - vm_compute. reflexivity.
  - vm_compute. reflexivity.
  - vm_compute. reflexivity.
Qed.

Lemma lookup_fails config env db tok :
  find (prisma.refreshToken.by_token tok) (Db.refreshTokens db) = None ->
  refreshToken config env tok db = (Throw SessionNotFound, db).
Proof.
  intros H. unfold refreshToken, prisma.transaction, refreshToken_body.
  unfold bind at 1. unfold prisma.refreshToken.findUnique at 1.
  rewrite H. reflexivity.
Qed.



(** The callback alone: of the failures of the five checks, only the
    expiry check has written to the store before it throws. *)
Lemma body_checks_write_nothing config env tok db message db' :
  refreshToken_body config env tok db = (Throw (AuthenticationError message), db') ->
  message <> "Refresh token has expired"%string ->
  db' = db.
Proof.
  unfold refreshToken_body.
  unfold bind at 1. unfold prisma.refreshToken.findUnique at 1.
  destruct (find _ (Db.refreshTokens db)) as [r|].
  2:{ intros E _. injection E as _ <-. reflexivity. }
  destruct (RefreshTokenData.expiresAt r <? Env.clock env).
  { unfold bind, prisma.refreshToken.delete.
    destruct (existsb _ _); intros E Hm.
    - injection E as E _. congruence.
    - discriminate E. }
  unfold bind at 1. unfold verifyRefreshToken.
  destruct (jwt_verify _ _ _ _ _) as [err|c].
  { intros E _. injection E as _ <-. reflexivity. }
  unfold ret at 1. unfold bind at 1.
  unfold UserService.findUserById, prisma.user.findUnique.
  destruct (find _ (Db.users db)) as [u|].
  2:{ intros E _. injection E as _ <-. reflexivity. }
  destruct (negb _).
  { intros E _. injection E as _ <-. reflexivity. }
  unfold bind, prisma.refreshToken.deleteMany, prisma.refreshToken.create.
  destruct (_ || _); [discriminate|].
  destruct (negb _); discriminate.
Qed.

(** C3.  If a rotation fails, at whatever check, the store after the call
    is the store before it: users, session rows and key sequence.  The delete
    of the expiry check runs inside the transaction and is undone with it. *)
Theorem failed_rotate_leaves_store config env tok db e :
  fst (refreshToken config env tok db) = Throw e ->
  snd (refreshToken config env tok db) = db.
Proof.
  unfold refreshToken, prisma.transaction.
  destruct (refreshToken_body config env tok db) as [[a|e'] db'];
    cbn [fst snd]; [discriminate | reflexivity].
Qed.

Lemma failed_rotate_leaves_store_witness :
  snd (refreshToken Demo.config Demo.past_expiry Demo.R1 Demo.registered)
    = Demo.registered.
Proof.
  apply (failed_rotate_leaves_store Demo.config Demo.past_expiry Demo.R1
           Demo.registered RefreshTokenExpired).
  vm_compute. reflexivity.
Defined.

(** C4, amended.  For a presented refresh token whose stored session row
    has [expiresAt < now], strictly, the rotation fails with
    [RefreshTokenExpired], and a rotation of the same token that follows at
    the same or a later clock reading fails as well. *)
Theorem expired_rotate_fails config env db tok r :
  find (prisma.refreshToken.by_token tok) (Db.refreshTokens db) = Some r ->
  RefreshTokenData.expiresAt r < Env.clock env ->
  fst (refreshToken config env tok db) = Throw RefreshTokenExpired
  /\ forall env',
       Env.clock env <= Env.clock env' ->
       exists e,
         fst (refreshToken config env' tok
                (snd (refreshToken config env tok db))) = Throw e.
Proof.
  intros Hfind Hexp.
  rewrite (expired_rotation_rolls_back config env db tok r Hfind Hexp).
  split; [reflexivity|]. intros env' Hlater. exists RefreshTokenExpired.
  cbn [snd]. rewrite (expired_rotation_rolls_back config env' db tok r Hfind);
    [reflexivity | lia].
Qed.

Lemma expired_rotate_fails_witness :
  fst (refreshToken Demo.config Demo.past_expiry Demo.R1 Demo.registered)
    = Throw RefreshTokenExpired.
Proof.
  apply (expired_rotate_fails Demo.config Demo.past_expiry Demo.registered
           Demo.R1 Demo.row1).
  - vm_compute. reflexivity.
  - vm_compute. reflexivity.
Defined.

(** C4 as stated fails on the row of [Demo.registered].  One millisecond
    after its expiry the rotation fails and the row is still stored; at the
    instant of its expiry ([expiresAt = now]) the rotation does not fail with
    [RefreshTokenExpired]: the strict comparison lets the row through and
    the token's own [exp] stops the call. *)
Lemma expired_row_survives_rotate :
  (find (prisma.refreshToken.by_token Demo.R1) (Db.refreshTokens Demo.registered)
     = Some Demo.row1
   /\ RefreshTokenData.expiresAt Demo.row1 <= Env.clock Demo.past_expiry
   /\ In Demo.row1
        (Db.refreshTokens
           (snd (refreshToken Demo.config Demo.past_expiry Demo.R1
                   Demo.registered))))
  /\ (RefreshTokenData.expiresAt Demo.row1 <= Env.clock Demo.at_expiry
      /\ fst (refreshToken Demo.config Demo.at_expiry Demo.R1 Demo.registered)
         <> Throw RefreshTokenExpired).
Proof.
  split; [split; [|split] | split].
  - vm_compute. reflexivity.
  - vm_compute. discriminate.
  - vm_compute. left. reflexivity.
  - vm_compute. discriminate.
  - vm_compute. discriminate.
Qed.

(** ** The row invariant in reachable stores *)

(** C6.  In every store reachable by the operations (register, login,
    rotate, and the deleting ones), each session row's [tokenVersion] is the
    [tokenVersion] claim decoded from the refresh token the row stores (and
    the row's user is the token's). *)
Theorem session_version_is_token_version config db r :
  reachable config db ->
  In r (Db.refreshTokens db) ->
  exists c,
    decodeToken (RefreshTokenData.token r) = Some c
    /\ Claims.tokenVersion c = Some (RefreshTokenData.tokenVersion r)
    /\ Claims.userId c = RefreshTokenData.userId r.
Proof.
  intros Hreach Hin.
  pose proof (store_wf_row config db r (reachable_wf config db Hreach) Hin) as Hwf.
  destruct (RefreshTokenData.token r) as [c key|text] eqn:E.
  - exists c. destruct (wf_row_claims config r c key Hwf E) as [Hu Hv].
    repeat split; assumption.
  - unfold wf_row in Hwf. rewrite E in Hwf. discriminate.
Qed.

Lemma session_version_is_token_version_witness :
  exists c,
    decodeToken (RefreshTokenData.token Demo.row2) = Some c
    /\ Claims.tokenVersion c = Some (RefreshTokenData.tokenVersion Demo.row2)
    /\ Claims.userId c = RefreshTokenData.userId Demo.row2.
Proof.
  apply (session_version_is_token_version Demo.config Demo.rotated Demo.row2).
  - unfold Demo.rotated, Demo.registered.
    apply reachable_after, reachable_after, reachable_empty.
  - vm_compute. left. reflexivity.
Defined.

(** ** The version [login] starts from *)

Lemma max_swap a b l :
  Z.max a (fold_right Z.max b l) = Z.max b (fold_right Z.max a l).
Proof.
  induction l as [|x l IH]; simpl; [lia|].
  rewrite !Z.max_assoc, (Z.max_comm a x), (Z.max_comm b x), <- !Z.max_assoc.
  rewrite IH. reflexivity.
Qed.

Lemma first_desc_version r l :
  option_map RefreshTokenData.tokenVersion (prisma.refreshToken.first_desc (r :: l))
  = Some (fold_right Z.max (RefreshTokenData.tokenVersion r)
            (map RefreshTokenData.tokenVersion l)).
Proof.
  revert r. induction l as [|a l IH]; intros r; [reflexivity|].
  specialize (IH a).
  change (prisma.refreshToken.first_desc (r :: a :: l))
    with (match prisma.refreshToken.first_desc (a :: l) with
          | Some r' =>
              if RefreshTokenData.tokenVersion r <? RefreshTokenData.tokenVersion r'
              then Some r' else Some r
          | None => Some r
          end).
  destruct (prisma.refreshToken.first_desc (a :: l)) as [r'|]; [|discriminate].
  cbn [option_map] in IH. injection IH as IH.
  cbn [map fold_right]. rewrite <- max_swap, <- IH.
  destruct (Z.ltb_spec (RefreshTokenData.tokenVersion r)
              (RefreshTokenData.tokenVersion r')); cbn [option_map];
    f_equal; lia.
Qed.

(** The folded maximum is an element of the list and bounds it. *)
Lemma fold_max_is_maximum v rest :
  In (fold_right Z.max v rest) (v :: rest)
  /\ forall x, In x (v :: rest) -> x <= fold_right Z.max v rest.
Proof.
  induction rest as [|a rest [IHin IHle]]; cbn [fold_right].
  - split; [left; reflexivity|]. intros x [<-|[]]. lia.
  - split.
    + destruct (Z.max_spec a (fold_right Z.max v rest)) as [[_ ->]|[_ ->]].
      * destruct IHin as [E|Hin]; [left; exact E | right; right; exact Hin].
      * right; left; reflexivity.
    + intros x [<-|[<-|Hx]].
      * specialize (IHle v (or_introl eq_refl)). lia.
      * lia.
      * specialize (IHle x (or_intror Hx)). lia.
Qed.

(** C7, amended.  [getUserTokenVersion] returns the largest [tokenVersion]
    among all session rows stored for the user, expired or not (a largest
    version of [0] is reported as [1]), returns [1] when no row is stored
    for the user, and leaves the store unchanged. *)
Theorem getUserTokenVersion_reports_stored_maximum userId db :
  RefreshTokenService.getUserTokenVersion userId db =
    (Return
       (reported_version
          (map RefreshTokenData.tokenVersion
             (filter (prisma.refreshToken.by_userId userId)
                (Db.refreshTokens db)))),
     db).
Proof.
  unfold RefreshTokenService.getUserTokenVersion, bind,
    prisma.refreshToken.findFirst_tokenVersion_desc, ret.
  destruct (filter _ (Db.refreshTokens db)) as [|r l]; [reflexivity|].
  rewrite first_desc_version. reflexivity.
Qed.

(** C7 as stated fails on [Demo.rotated], a reachable store: once the
    version-2 row has expired the user has no live row, and the version
    reported is [2], not [1]. *)
Lemma expired_rows_count_for_version :
  reachable Demo.config Demo.rotated
  /\ live_rows (Env.clock Demo.much_later) 0%N Demo.rotated = []
  /\ fst (RefreshTokenService.getUserTokenVersion 0%N Demo.rotated) = Return 2
  /\ fst (RefreshTokenService.getUserTokenVersion 0%N Demo.rotated) <> Return 1.
Proof.
  split; [|split; [|split]].
  - unfold Demo.rotated, Demo.registered.
    apply reachable_after, reachable_after, reachable_empty.
  - vm_compute. reflexivity.
  - vm_compute. reflexivity.
  - vm_compute. discriminate.
Qed.

(** C8.  For every user id, email and version, the two tokens of
    [generateTokens] verify (while unexpired) and decode to claims that carry
    the inputs: user id and email in the access token, user id and version in
    the refresh token; and their [jti] values differ. *)
Theorem generateTokens_claims config env userId email tokenVersion clock :
  clock / 1000 < Env.clock env / 1000 + Config.JWT_EXPIRES_IN config ->
  clock / 1000 < Env.clock env / 1000 + Config.JWT_REFRESH_EXPIRES_IN config ->
  let tokens := generateTokens config env userId email tokenVersion in
  exists access refresh,
    verifyAccessToken config clock (AuthTokens.accessToken tokens) tt
      = (Return access, tt)
    /\ verifyRefreshToken config clock (AuthTokens.refreshToken tokens) tt
       = (Return refresh, tt)
    /\ decodeToken (AuthTokens.accessToken tokens) = Some access
    /\ decodeToken (AuthTokens.refreshToken tokens) = Some refresh
    /\ Claims.userId access = userId
    /\ Claims.email access = Some email
    /\ Claims.userId refresh = userId
    /\ Claims.tokenVersion refresh = Some tokenVersion
    /\ Claims.jti access = Some (jti_of "access" env)
    /\ Claims.jti refresh = Some (jti_of "refresh" env)
    /\ Claims.jti access <> Claims.jti refresh.
Proof.
  intros Ha Hr tokens. subst tokens.
  unfold generateTokens, generateAccessToken, generateRefreshToken, jwt_sign.
  cbn [AuthTokens.accessToken AuthTokens.refreshToken expiresIn issuer audience].
  eexists. eexists.
  unfold verifyAccessToken, verifyRefreshToken, jwt_verify, decodeToken,
    jwt_decode, accessTokenSecret, refreshTokenSecret, accessTokenExpiry,
    refreshTokenExpiry.
  cbn [Claims.exp Claims.aud Claims.iss].
  rewrite !String.eqb_refl. cbn [negb].
  rewrite (proj2 (Z.leb_gt _ _) Ha), (proj2 (Z.leb_gt _ _) Hr).
  repeat (split; [reflexivity|]).
  unfold Claims.jti, jti_of. cbn [Claims.payload Payload.jti].
  intros E. injection E as E. discriminate E.
Qed.

Lemma generateTokens_claims_witness :
  exists access refresh,
    decodeToken Demo.A1 = Some access
    /\ decodeToken Demo.R1 = Some refresh
    /\ Claims.userId access = 0%N
    /\ Claims.email access = Some "u1@example.com"%string
    /\ Claims.userId refresh = 0%N
    /\ Claims.tokenVersion refresh = Some 1
    /\ Claims.jti access <> Claims.jti refresh.
Proof.
  destruct (generateTokens_claims Demo.config Demo.at_register 0%N
              "u1@example.com" 1 2000)
    as (access & refresh & _ & _ & Ha & Hr & H1 & H2 & H3 & H4 & _ & _ & H5);
    try (vm_compute; reflexivity).
  exists access, refresh. repeat split; assumption.
Defined.

(** ** Access validation *)

(** Whatever the body of [validateAccessToken] throws, the handler throws
    the one error in its place. *)
Lemma validateAccessToken_throws config clock token db e :
  fst (validateAccessToken config clock token db) = Throw e -> e = AccessDenied.
Proof.
  unfold validateAccessToken, try_catch.
  match goal with |- context [match ?m db with _ => _ end] =>
    destruct (m db) as [[a|e'] db'] end; cbn [fst throw].
  - discriminate.
  - intros E. injection E as <-. reflexivity.
Qed.

Lemma validateAccessToken_user_missing config clock token db c :
  jwt_verify clock token (Config.JWT_SECRET config) "auth-api" "auth-client"
    = inr c ->
  find (prisma.user.by_id (Claims.userId c)) (Db.users db) = None ->
  validateAccessToken config clock token db = (Throw AccessDenied, db).
Proof.
  intros Hver Huser.
  unfold validateAccessToken, try_catch, bind, verifyAccessToken,
    accessTokenSecret.
  rewrite Hver. unfold ret, UserService.findUserById, prisma.user.findUnique.
  rewrite Huser. reflexivity.
Qed.

(** C9, amended.  For an access token that is correctly signed and
    unexpired but whose user does not exist, [validateAccessToken] and the
    [authenticate] handler fail with the [AuthenticationError] whose message
    is "Invalid or expired access token": the "User not found" error thrown
    inside is replaced by the handler of the enclosing [try]. *)
Theorem deleted_user_is_denied config clock token db c :
  jwt_verify clock token (Config.JWT_SECRET config) "auth-api" "auth-client"
    = inr c ->
  find (prisma.user.by_id (Claims.userId c)) (Db.users db) = None ->
  validateAccessToken config clock token db = (Throw AccessDenied, db)
  /\ forall request,
       Request.authorization request = Some (Bearer token) ->
       fst (authenticate config clock (request, db)) = Throw AccessDenied.
Proof.
  intros Hver Huser.
  pose proof (validateAccessToken_user_missing config clock token db c
                Hver Huser) as Hval.
  split; [exact Hval|]. intros request Hauth.
  destruct token as [cl key|text]; [|discriminate Hver].
  cbv beta iota zeta delta
    [authenticate try_catch bind get_state presented call fst snd].
  rewrite Hauth. cbv beta iota delta [falsy]. rewrite Hval. reflexivity.
Qed.

Lemma deleted_user_is_denied_witness :
  validateAccessToken Demo.config 2000 Demo.A1 Demo.deleted
    = (Throw AccessDenied, Demo.deleted).
Proof.
  refine (proj1 (deleted_user_is_denied Demo.config 2000 Demo.A1 Demo.deleted
                   _ _ _)).
  - vm_compute. reflexivity.
  - vm_compute. reflexivity.
Defined.

(** C9 as stated fails on [Demo.deleted], a reachable store: the access
    token of the deleted user verifies, the user is gone, and the error is
    not [UserNotFound]. *)
Lemma deleted_user_not_reported :
  reachable Demo.config Demo.deleted
  /\ (exists c,
        jwt_verify 2000 Demo.A1 (Config.JWT_SECRET Demo.config)
          "auth-api" "auth-client" = inr c
        /\ find (prisma.user.by_id (Claims.userId c)) (Db.users Demo.deleted)
           = None)
  /\ fst (validateAccessToken Demo.config 2000 Demo.A1 Demo.deleted)
     <> Throw UserNotFound.
Proof.
  split; [|split].
  - unfold Demo.deleted, Demo.registered.
    apply reachable_after, reachable_after, reachable_empty.
  - eexists. split; vm_compute; reflexivity.
  - vm_compute. discriminate.
Qed.

(** C10.  Whenever [validateAccessToken] or the [authenticate] handler
    fails, on any token, request and store, the error is the single
    [AuthenticationError] with the message "Invalid or expired access
    token": the causes of the failure cannot be told apart. *)
Theorem authenticate_failure_is_uniform config clock token request db e :
  fst (validateAccessToken config clock token db) = Throw e
  \/ fst (authenticate config clock (request, db)) = Throw e ->
  e = AccessDenied.
Proof.
  intros [H|H].
  - exact (validateAccessToken_throws config clock token db e H).
  - unfold authenticate, try_catch in H.
    match type of H with context [match ?m ?s with _ => _ end] =>
      destruct (m s) as [[a|e'] s'] end; cbn [fst throw] in H.
    + discriminate.
    + injection H as <-. reflexivity.
Qed.

Lemma authenticate_failure_is_uniform_witness :
  AuthenticationError "Invalid or expired access token" = AccessDenied.
Proof.
  apply (authenticate_failure_is_uniform Demo.config 2000
           (Malformed "not-a-token")
           (Request.mk None None None) Demo.registered).
  left. vm_compute. reflexivity.
Defined.

(** * Further properties of the services *)

(** ** Issued tokens and their verification *)

Lemma jwt_verify_accepts clock tok secret iss aud c :
  jwt_verify clock tok secret iss aud = inr c <->
  tok = Jws c secret /\ clock / 1000 < Claims.exp c
  /\ Claims.aud c = aud /\ Claims.iss c = iss.
Proof.
  unfold jwt_verify. split.
  - destruct tok as [c' key|text]; [|discriminate].
    destruct (String.eqb_spec key secret); cbn [negb]; [|discriminate].
    destruct (Z.leb_spec (Claims.exp c') (clock / 1000)); [discriminate|].
    destruct (String.eqb_spec (Claims.aud c') aud); cbn [negb]; [|discriminate].
    destruct (String.eqb_spec (Claims.iss c') iss); cbn [negb]; [|discriminate].
    intros E. injection E as <-. subst. auto.
  - intros (-> & Hexp & <- & <-).
    rewrite !String.eqb_refl. cbn [negb].
    rewrite (proj2 (Z.leb_gt _ _) Hexp). reflexivity.
Qed.

Lemma seconds_before (clock e : Z) : clock / 1000 < e <-> clock < e * 1000.
Proof.
  split; intros H.
  - apply Z.nle_gt. intros Hle. apply Z.nle_gt in H. apply H.
    apply Z.div_le_lower_bound; lia.
  - apply Z.div_lt_upper_bound; lia.
Qed.

(** X1.  For the pair [generateTokens] issues, [getTokenExpiry] is the issuing
    second plus the configured lifetime, in milliseconds, and each token
    verifies at exactly the clock readings strictly before it. *)
Theorem issued_tokens_valid_until_expiry config env userId email v clock ta tr :
  let tokens := generateTokens config env userId email v in
  getTokenExpiry (AuthTokens.accessToken tokens) = Some ta ->
  getTokenExpiry (AuthTokens.refreshToken tokens) = Some tr ->
  ((exists c, verifyAccessToken config clock (AuthTokens.accessToken tokens) tt
              = (Return c, tt))
   <-> clock < ta)
  /\ ((exists c, verifyRefreshToken config clock (AuthTokens.refreshToken tokens) tt
                 = (Return c, tt))
      <-> clock < tr)
  /\ ta = (Env.clock env / 1000 + Config.JWT_EXPIRES_IN config) * 1000
  /\ tr = (Env.clock env / 1000 + Config.JWT_REFRESH_EXPIRES_IN config) * 1000.
Proof.
  intros tokens Ha Hr. subst tokens.
  unfold getTokenExpiry, generateTokens, generateAccessToken,
    generateRefreshToken, jwt_sign, jwt_decode, accessTokenExpiry,
    refreshTokenExpiry in Ha, Hr.
  cbn [AuthTokens.accessToken AuthTokens.refreshToken expiresIn Claims.exp]
    in Ha, Hr.
  destruct (_ =? 0) in Ha; [discriminate|]. injection Ha as <-.
  destruct (_ =? 0) in Hr; [discriminate|]. injection Hr as <-.
  unfold verifyAccessToken, verifyRefreshToken.
  repeat split.
  - intros [c H].
    destruct (jwt_verify _ _ _ _ _) as [err|c'] eqn:E; [discriminate|].
    apply jwt_verify_accepts in E. destruct E as (E & Hexp & _).
    unfold generateTokens, generateAccessToken, jwt_sign in E.
    cbn [AuthTokens.accessToken expiresIn] in E. injection E as <-.
    cbn [Claims.exp] in Hexp. apply seconds_before. exact Hexp.
  - intros H. eexists.
    erewrite (proj2 (jwt_verify_accepts _ _ _ _ _ _)); [reflexivity|].
    unfold generateTokens, generateAccessToken, jwt_sign, accessTokenSecret.
    cbn [AuthTokens.accessToken expiresIn issuer audience].
    repeat split. cbn [Claims.exp]. apply seconds_before. exact H.
  - intros [c H].
    destruct (jwt_verify _ _ _ _ _) as [err|c'] eqn:E; [discriminate|].
    apply jwt_verify_accepts in E. destruct E as (E & Hexp & _).
    unfold generateTokens, generateRefreshToken, jwt_sign in E.
    cbn [AuthTokens.refreshToken expiresIn] in E. injection E as <-.
    cbn [Claims.exp] in Hexp. apply seconds_before. exact Hexp.
  - intros H. eexists.
    erewrite (proj2 (jwt_verify_accepts _ _ _ _ _ _)); [reflexivity|].
    unfold generateTokens, generateRefreshToken, jwt_sign, refreshTokenSecret.
    cbn [AuthTokens.refreshToken expiresIn issuer audience].
    repeat split. cbn [Claims.exp]. apply seconds_before. exact H.
Qed.

Lemma issued_tokens_valid_until_expiry_witness :
  (exists c, verifyAccessToken Demo.config 900999 Demo.A1 tt = (Return c, tt))
  <-> 900999 < 901000.
Proof.
  refine (proj1 (issued_tokens_valid_until_expiry Demo.config Demo.at_register
                   0%N "u1@example.com" 1 900999 901000 604801000 _ _));
    vm_compute; reflexivity.
Defined.

(** A rotation returns only when the presented token verifies against the
    refresh secret. *)
Lemma rotation_needs_refresh_signature config env tok db a :
  fst (refreshToken config env tok db) = Return a ->
  exists c,
    jwt_verify (Env.clock env) tok (Config.JWT_REFRESH_SECRET config)
      "auth-api" "auth-client" = inr c.
Proof.
  unfold refreshToken, prisma.transaction.
  destruct (refreshToken_body config env tok db) as [[a'|e] db'] eqn:E;
    cbn [fst]; [|discriminate].
  intros _. revert E. unfold refreshToken_body.
  unfold bind at 1. unfold prisma.refreshToken.findUnique at 1.
  destruct (find _ (Db.refreshTokens db)) as [r|]; [|discriminate].
  destruct (RefreshTokenData.expiresAt r <? Env.clock env).
  { unfold bind, prisma.refreshToken.delete.
    destruct (existsb _ _); discriminate. }
  unfold bind at 1. unfold verifyRefreshToken, refreshTokenSecret.
  destruct (jwt_verify _ _ _ _ _) as [err|c]; [discriminate|].
  intros _. exists c. reflexivity.
Qed.

(** X2.  When the two secrets differ, a refresh token from [generateTokens]
    is refused by [validateAccessToken], and the access token can never be
    rotated, whatever the store holds. *)
Theorem token_kinds_not_interchangeable config env userId email v clock env' db :
  Config.JWT_SECRET config <> Config.JWT_REFRESH_SECRET config ->
  let tokens := generateTokens config env userId email v in
  validateAccessToken config clock (AuthTokens.refreshToken tokens) db
    = (Throw AccessDenied, db)
  /\ forall a,
       fst (refreshToken config env' (AuthTokens.accessToken tokens) db)
         <> Return a.
Proof.
  intros Hne tokens. split.
  - unfold validateAccessToken, try_catch, bind, verifyAccessToken.
    destruct (jwt_verify _ _ _ _ _) as [err|c] eqn:E; [reflexivity|].
    apply jwt_verify_accepts in E. destruct E as (E & _).
    unfold tokens, generateTokens, generateRefreshToken, jwt_sign,
      refreshTokenSecret, accessTokenSecret in E.
    cbn [AuthTokens.refreshToken] in E. injection E as _ E. congruence.
  - intros a H.
    destruct (rotation_needs_refresh_signature _ _ _ _ _ H) as [c E].
    apply jwt_verify_accepts in E. destruct E as (E & _).
    unfold tokens, generateTokens, generateAccessToken, jwt_sign,
      accessTokenSecret in E.
    cbn [AuthTokens.accessToken] in E. injection E as _ E. congruence.
Qed.

Lemma token_kinds_not_interchangeable_witness :
  validateAccessToken Demo.config 2000 Demo.R1 Demo.registered
    = (Throw AccessDenied, Demo.registered).
Proof.
  refine (proj1 (token_kinds_not_interchangeable Demo.config Demo.at_register
                   0%N "u1@example.com" 1 2000 Demo.at_rotate Demo.registered
                   _)).
  vm_compute. discriminate.
Defined.

(** X3.  [validateAccessToken] returns an identity exactly when the token
    is signed with the access secret, carries the issuer ["auth-api"] and
    the audience ["auth-client"], has not reached its [exp], and its user
    exists; the identity is the token's [userId] and [email]; the store is
    never changed. *)
Theorem validateAccessToken_accepts_exactly config clock token db i :
  (fst (validateAccessToken config clock token db) = Return i
   <-> exists c,
         token = Jws c (Config.JWT_SECRET config)
         /\ clock / 1000 < Claims.exp c
         /\ Claims.iss c = "auth-api"%string
         /\ Claims.aud c = "auth-client"%string
         /\ existsb (prisma.user.by_id (Claims.userId c)) (Db.users db) = true
         /\ i = Identity.mk (Claims.userId c) (Claims.email c))
  /\ snd (validateAccessToken config clock token db) = db.
Proof.
  unfold validateAccessToken, try_catch, bind, verifyAccessToken,
    accessTokenSecret, UserService.findUserById, prisma.user.findUnique.
  destruct (jwt_verify clock token (Config.JWT_SECRET config)
              "auth-api" "auth-client") as [err|c] eqn:E.
  - split; [|reflexivity]. split; [discriminate|].
    intros (c & Htok & Hexp & Hiss & Haud & _).
    rewrite (proj2 (jwt_verify_accepts _ _ _ _ _ c)) in E; [discriminate|].
    auto.
  - apply jwt_verify_accepts in E. destruct E as (-> & Hexp & Haud & Hiss).
    unfold ret. destruct (find _ (Db.users db)) as [u|] eqn:Hu; cbn [fst snd].
    + split; [|reflexivity]. split.
      * intros H. injection H as <-. exists c.
        repeat split; auto. exact (find_existsb _ _ _ Hu).
      * intros (c' & Htok & _ & _ & _ & _ & ->). injection Htok as <-.
        reflexivity.
    + split; [|reflexivity]. split; [discriminate|].
      intros (c' & Htok & _ & _ & _ & Hex & _). injection Htok as <-.
      apply existsb_exists in Hex. destruct Hex as (u & Hin & Hp).
      pose proof (find_none _ _ Hu u Hin) as Hf. congruence.
Qed.

(** Access validation reads the user table only. *)
Lemma validateAccessToken_reads_users config clock token db1 db2 :
  Db.users db1 = Db.users db2 ->
  fst (validateAccessToken config clock token db1)
    = fst (validateAccessToken config clock token db2).
Proof.
  intros H.
  unfold validateAccessToken, try_catch, bind, verifyAccessToken,
    UserService.findUserById, prisma.user.findUnique, ret, throw.
  destruct (jwt_verify _ _ _ _ _); [reflexivity|].
  rewrite H. destruct (find _ (Db.users db2)); reflexivity.
Qed.

(** X4.  [logout] and [logoutAllDevices] do not change what
    [validateAccessToken] answers for any token: an access token issued
    before the logout is accepted after it as before. *)
Theorem access_token_outlives_logout config clock token userId db :
  fst (validateAccessToken config clock token (snd (logout userId db)))
    = fst (validateAccessToken config clock token db)
  /\ fst (validateAccessToken config clock token
            (snd (logoutAllDevices userId db)))
     = fst (validateAccessToken config clock token db).
Proof.
  split; apply validateAccessToken_reads_users; reflexivity.
Qed.

(** X5.  When the configuration gives both kinds of token the same secret,
    an unexpired refresh token from [generateTokens] is accepted by
    [validateAccessToken] as an access token of its user, with no email. *)
Theorem shared_secret_lets_refresh_token_authenticate
  config env userId email v clock db u :
  Config.JWT_SECRET config = Config.JWT_REFRESH_SECRET config ->
  clock / 1000 < Env.clock env / 1000 + Config.JWT_REFRESH_EXPIRES_IN config ->
  find (prisma.user.by_id userId) (Db.users db) = Some u ->
  validateAccessToken config clock
    (AuthTokens.refreshToken (generateTokens config env userId email v)) db
  = (Return (Identity.mk userId None), db).
Proof.
  intros Hsec Hexp Hu.
  unfold validateAccessToken, try_catch, bind, verifyAccessToken,
    accessTokenSecret.
  erewrite (proj2 (jwt_verify_accepts _ _ _ _ _ _)).
  2:{ unfold generateTokens, generateRefreshToken, jwt_sign, refreshTokenSecret,
        refreshTokenExpiry.
      cbn [AuthTokens.refreshToken expiresIn issuer audience].
      rewrite Hsec. repeat split. exact Hexp. }
  unfold ret, UserService.findUserById, prisma.user.findUnique.
  cbn [Claims.userId Claims.email Claims.payload Payload.userId Payload.email].
  rewrite Hu. reflexivity.
Qed.

(** ** The handlers *)

Lemma validateAccessToken_keeps_store config clock token db :
  snd (validateAccessToken config clock token db) = db.
Proof.
  unfold validateAccessToken, try_catch, bind, verifyAccessToken,
    UserService.findUserById, prisma.user.findUnique, ret, throw.
  destruct (jwt_verify _ _ _ _ _); [reflexivity|].
  destruct (find _ (Db.users db)); reflexivity.
Qed.

(** The handlers' call of [validateAccessToken], by its outcome. *)
Lemma call_validateAccessToken config clock token request db :
  call (validateAccessToken config clock token) (request, db)
  = (fst (validateAccessToken config clock token db), (request, db)).
Proof.
  unfold call. cbn [fst snd].
  pose proof (validateAccessToken_keeps_store config clock token db) as H.
  destruct (validateAccessToken config clock token db) as [o db'].
  cbn [fst snd] in *. subst db'. reflexivity.
Qed.

(** What the two handlers compute, by the token presented and the outcome
    of its validation. *)
Lemma optionalAuthenticate_run config clock request db :
  optionalAuthenticate config clock (request, db)
  = (Return tt,
     (match presented request with
      | Some t =>
          if falsy (Some t) then request
          else Request.with_user request
                 match fst (validateAccessToken config clock t db) with
                 | Return i => Some i
                 | Throw _ => None
                 end
      | None => request
      end, db)).
Proof.
  unfold optionalAuthenticate.
  unfold try_catch at 1. unfold bind at 1. unfold get_state at 1.
  cbn [fst snd].
  destruct (presented request) as [t|]; [|reflexivity].
  destruct (falsy (Some t)); [reflexivity|].
  unfold try_catch, bind. rewrite call_validateAccessToken.
  destruct (fst (validateAccessToken config clock t db)) as [i|e]; reflexivity.
Qed.

Lemma authenticate_run config clock request db :
  authenticate config clock (request, db)
  = match presented request with
    | Some t =>
        if falsy (Some t) then (Throw AccessDenied, (request, db))
        else match fst (validateAccessToken config clock t db) with
             | Return i => (Return tt, (Request.with_user request (Some i), db))
             | Throw _ => (Throw AccessDenied, (request, db))
             end
    | None => (Throw AccessDenied, (request, db))
    end.
Proof.
  unfold authenticate.
  unfold try_catch at 1. unfold bind at 1. unfold get_state at 1.
  cbn [fst snd].
  destruct (presented request) as [t|]; [|reflexivity].
  destruct (falsy (Some t)); [reflexivity|].
  unfold bind. rewrite call_validateAccessToken.
  destruct (fst (validateAccessToken config clock t db)) as [i|e]; reflexivity.
Qed.

(** X6.  [optionalAuthenticate] never throws and never changes the store;
    when a non-empty token is presented it sets [request.user] to the
    identity if the token validates and to nothing if it does not; when no
    token is presented [request.user] is left as it was. *)
Theorem optionalAuthenticate_never_throws config clock request db :
  fst (optionalAuthenticate config clock (request, db)) = Return tt
  /\ snd (snd (optionalAuthenticate config clock (request, db))) = db
  /\ Request.user (fst (snd (optionalAuthenticate config clock (request, db))))
     = match presented request with
       | Some t =>
           if falsy (Some t) then Request.user request
           else match fst (validateAccessToken config clock t db) with
                | Return i => Some i
                | Throw _ => None
                end
       | None => Request.user request
       end.
Proof.
  rewrite optionalAuthenticate_run. cbn [fst snd].
  split; [reflexivity|]. split; [reflexivity|].
  destruct (presented request) as [t|]; [|reflexivity].
  destruct (falsy (Some t)); reflexivity.
Qed.

(** X7.  [authenticate] returns exactly when a non-empty token is presented
    (bearer header first, cookie otherwise) and [validateAccessToken] accepts
    it; it then stores the identity in [request.user]; when it throws, the
    request and the store are as before. *)
Theorem authenticate_accepts_exactly config clock request db :
  (fst (authenticate config clock (request, db)) = Return tt
   <-> exists t i,
         presented request = Some t /\ falsy (Some t) = false
         /\ fst (validateAccessToken config clock t db) = Return i)
  /\ (forall t i,
        presented request = Some t -> falsy (Some t) = false ->
        fst (validateAccessToken config clock t db) = Return i ->
        snd (authenticate config clock (request, db))
        = (Request.with_user request (Some i), db))
  /\ (forall e,
        fst (authenticate config clock (request, db)) = Throw e ->
        snd (authenticate config clock (request, db)) = (request, db)).
Proof.
  rewrite authenticate_run.
  destruct (presented request) as [t|].
  2:{ split; [|split].
      - split; [discriminate|]. intros (t & i & H & _). discriminate.
      - intros t i H. discriminate.
      - reflexivity. }
  destruct (falsy (Some t)) eqn:Hf.
  { split; [|split].
    - split; [discriminate|]. intros (t' & i & H & Hf' & _).
      injection H as <-. congruence.
    - intros t' i H Hf'. injection H as <-. congruence.
    - reflexivity. }
  destruct (fst (validateAccessToken config clock t db)) as [i|e] eqn:Hv.
  - split; [|split].
    + split; [|reflexivity]. intros _. exists t, i. auto.
    + intros t' i' H _ Hv'. injection H as <-. rewrite Hv in Hv'.
      injection Hv' as <-. reflexivity.
    + discriminate.
  - split; [|split].
    + split; [discriminate|]. intros (t' & i & H & _ & Hv').
      injection H as <-. congruence.
    + intros t' i' H _ Hv'. injection H as <-. congruence.
    + reflexivity.
Qed.

(** X8.  A request that [authenticate] let through passes [requireRole]
    whatever roles are required: the roles are not checked. *)
Theorem requireRole_ignores_roles config clock request db roles :
  fst (authenticate config clock (request, db)) = Return tt ->
  fst (requireRole roles (snd (authenticate config clock (request, db))))
    = Return tt.
Proof.
  rewrite authenticate_run.
  destruct (presented request) as [t|]; [|discriminate].
  destruct (falsy (Some t)); [discriminate|].
  destruct (fst (validateAccessToken config clock t db)); [|discriminate].
  reflexivity.
Qed.

(** ** The session store *)

Lemma filter_idempotent {A} (p : A -> bool) (l : list A) :
  filter p (filter p l) = filter p l.
Proof.
  induction l as [|a l IH]; [reflexivity|].
  cbn [filter]. destruct (p a) eqn:E; cbn [filter]; [rewrite E|];
    rewrite IH; reflexivity.
Qed.

Lemma filter_none_matching {A} (w : A -> bool) (l : list A) :
  existsb w l = false -> filter (fun a => negb (w a)) l = l.
Proof.
  induction l as [|a l IH]; [reflexivity|].
  cbn [existsb filter]. intros H. apply orb_false_iff in H.
  destruct H as [Ha Hl]. rewrite Ha, (IH Hl). reflexivity.
Qed.

(** A guarded single-row delete never throws and removes the rows that
    match, whether there were any or not. *)
Lemma guarded_delete_run w db :
  try_catch (prisma.refreshToken.delete w) (fun _ => ret tt) db
  = (Return tt,
     Db.with_refreshTokens db
       (filter (fun r => negb (w r)) (Db.refreshTokens db))).
Proof.
  unfold try_catch, prisma.refreshToken.delete, ret.
  destruct (existsb w (Db.refreshTokens db)) eqn:E; [reflexivity|].
  rewrite (filter_none_matching _ _ E). destruct db. reflexivity.
Qed.

(** X9.  [deleteRefreshToken], [deleteRefreshTokenByToken] and
    [deleteRefreshTokenBySessionId] never throw, leave no row that matches,
    and deleting a second time changes nothing. *)
Theorem single_deletes_are_idempotent id token sessionId db :
  let d1 := RefreshTokenService.deleteRefreshToken id in
  let d2 := RefreshTokenService.deleteRefreshTokenByToken token in
  let d3 := RefreshTokenService.deleteRefreshTokenBySessionId sessionId in
  (fst (d1 db) = Return tt
   /\ find (prisma.refreshToken.by_id id) (Db.refreshTokens (snd (d1 db))) = None
   /\ d1 (snd (d1 db)) = (Return tt, snd (d1 db)))
  /\ (fst (d2 db) = Return tt
      /\ find (prisma.refreshToken.by_token token)
           (Db.refreshTokens (snd (d2 db))) = None
      /\ d2 (snd (d2 db)) = (Return tt, snd (d2 db)))
  /\ (fst (d3 db) = Return tt
      /\ find (prisma.refreshToken.by_sessionId sessionId)
           (Db.refreshTokens (snd (d3 db))) = None
      /\ d3 (snd (d3 db)) = (Return tt, snd (d3 db))).
Proof.
  cbv zeta.
  unfold RefreshTokenService.deleteRefreshToken,
    RefreshTokenService.deleteRefreshTokenByToken,
    RefreshTokenService.deleteRefreshTokenBySessionId.
  rewrite !guarded_delete_run. cbn [fst snd].
  cbn [Db.refreshTokens Db.with_refreshTokens Db.users Db.sequence].
  rewrite !filter_idempotent.
  repeat split;
    apply find_filter_none; intros a _ H; rewrite H; reflexivity.
Qed.

Lemma findRefreshToken_run now token db :
  RefreshTokenService.findRefreshToken now token db
  = match find (prisma.refreshToken.by_token token) (Db.refreshTokens db) with
    | Some r =>
        if RefreshTokenData.expiresAt r <? now then
          (Return None,
           Db.with_refreshTokens db
             (filter
                (fun x => negb (prisma.refreshToken.by_id (RefreshTokenData.id r) x))
                (Db.refreshTokens db)))
        else (Return (Some r), db)
    | None => (Return None, db)
    end.
Proof.
  unfold RefreshTokenService.findRefreshToken.
  unfold bind at 1. unfold prisma.refreshToken.findUnique.
  destruct (find _ (Db.refreshTokens db)) as [r|]; [|reflexivity].
  destruct (RefreshTokenData.expiresAt r <? now); [|reflexivity].
  unfold bind, RefreshTokenService.deleteRefreshToken.
  rewrite guarded_delete_run. reflexivity.
Qed.

(** X10.  A row [findRefreshToken] returns is stored under the presented
    token and has not expired ([now <= expiresAt]), and the store is
    unchanged. *)
Theorem findRefreshToken_never_returns_expired now token db r :
  fst (RefreshTokenService.findRefreshToken now token db) = Return (Some r) ->
  In r (Db.refreshTokens db)
  /\ RefreshTokenData.token r = token
  /\ now <= RefreshTokenData.expiresAt r
  /\ snd (RefreshTokenService.findRefreshToken now token db) = db.
Proof.
  rewrite findRefreshToken_run.
  destruct (find _ (Db.refreshTokens db)) as [r'|] eqn:Hfind; [|discriminate].
  destruct (Z.ltb_spec (RefreshTokenData.expiresAt r') now); [discriminate|].
  cbn [fst snd]. intros E. injection E as <-.
  destruct (lookup_token _ _ _ Hfind) as [Hin Htok].
  repeat split; assumption || reflexivity.
Qed.

(** X11.  [findRefreshToken] on a token whose row has expired returns
    nothing and deletes that row, for good: there is no transaction to undo
    the delete; rows with another key and the users stay. *)
Theorem findRefreshToken_purges_expired now token db r :
  find (prisma.refreshToken.by_token token) (Db.refreshTokens db) = Some r ->
  RefreshTokenData.expiresAt r < now ->
  let db' := snd (RefreshTokenService.findRefreshToken now token db) in
  fst (RefreshTokenService.findRefreshToken now token db) = Return None
  /\ ~ In r (Db.refreshTokens db')
  /\ (forall x, In x (Db.refreshTokens db) ->
                RefreshTokenData.id x <> RefreshTokenData.id r ->
                In x (Db.refreshTokens db'))
  /\ Db.users db' = Db.users db.
Proof.
  intros Hfind Hexp db'. subst db'.
  rewrite findRefreshToken_run, Hfind, (proj2 (Z.ltb_lt _ _) Hexp).
  cbn [fst snd Db.refreshTokens Db.users Db.with_refreshTokens].
  split; [reflexivity|]. split; [|split; [|reflexivity]].
  - intros Hin. apply filter_In in Hin. destruct Hin as [_ Hne].
    unfold prisma.refreshToken.by_id in Hne. rewrite N.eqb_refl in Hne.
    discriminate.
  - intros x Hin Hne. apply filter_In. split; [exact Hin|].
    unfold prisma.refreshToken.by_id. apply negb_true_iff.
    apply N.eqb_neq. exact Hne.
Qed.

Lemma createRefreshToken_run now tok u v sid ex db :
  RefreshTokenService.createRefreshToken now tok u v sid ex db
  = prisma.refreshToken.create now tok u v sid ex
      (Db.with_refreshTokens db
         (filter (fun r => negb (expired now r && prisma.refreshToken.by_userId u r))
            (Db.refreshTokens db))).
Proof. reflexivity. Qed.

(** X12.  [createRefreshToken] first purges the expired rows of that user
    only, then inserts; when the insert fails the purge remains, and users
    are never touched. *)
Theorem createRefreshToken_purge_outlasts_failure now tok u v sid ex db :
  let out := RefreshTokenService.createRefreshToken now tok u v sid ex db in
  let purged :=
    filter (fun r => negb (expired now r && prisma.refreshToken.by_userId u r))
      (Db.refreshTokens db) in
  Db.refreshTokens (snd out)
  = purged ++ match fst out with
              | Return row => [row]
              | Throw _ => []
              end
  /\ (forall row, fst out = Return row ->
        row = RefreshTokenData.mk (Db.sequence db) tok u v sid ex now now)
  /\ Db.users (snd out) = Db.users db.
Proof.
  cbv zeta. rewrite createRefreshToken_run.
  unfold prisma.refreshToken.create.
  cbn [Db.refreshTokens Db.with_refreshTokens Db.users Db.sequence].
  destruct (_ || _).
  { cbn [fst snd Db.refreshTokens Db.users]. rewrite app_nil_r.
    repeat split. discriminate. }
  destruct (negb _).
  { cbn [fst snd Db.refreshTokens Db.users]. rewrite app_nil_r.
    repeat split. discriminate. }
  cbn [fst snd Db.refreshTokens Db.users].
  repeat split. intros row E. injection E as <-. reflexivity.
Qed.

(** [getUserTokenVersion], by the versions stored for the user. *)
Lemma getUserTokenVersion_run userId db :
  RefreshTokenService.getUserTokenVersion userId db
  = (Return (reported_version
               (map RefreshTokenData.tokenVersion (rows_of userId db))), db).
Proof.
  unfold RefreshTokenService.getUserTokenVersion, bind,
    prisma.refreshToken.findFirst_tokenVersion_desc, ret, rows_of.
  destruct (filter _ (Db.refreshTokens db)) as [|r l]; [reflexivity|].
  rewrite first_desc_version. reflexivity.
Qed.

Lemma rows_of_after_delete u o rows :
  filter (prisma.refreshToken.by_userId o)
    (filter (fun r => negb (prisma.refreshToken.by_userId u r)) rows)
  = if N.eqb o u then [] else filter (prisma.refreshToken.by_userId o) rows.
Proof.
  unfold prisma.refreshToken.by_userId.
  induction rows as [|a l IH]; [destruct (N.eqb o u); reflexivity|].
  cbn [filter].
  destruct (N.eqb_spec (RefreshTokenData.userId a) u) as [Ea|Ea]; cbn [negb filter].
  - rewrite IH. destruct (N.eqb_spec o u) as [Eo|Eo]; [reflexivity|].
    destruct (N.eqb_spec (RefreshTokenData.userId a) o); [congruence|].
    reflexivity.
  - rewrite IH. destruct (N.eqb_spec o u) as [Eo|Eo].
    + destruct (N.eqb_spec (RefreshTokenData.userId a) o); [congruence|].
      reflexivity.
    + reflexivity.
Qed.

(** X13.  After [logout] the version reported for the user is [1] again,
    whatever it was; the version reported for any other user is unchanged. *)
Theorem logout_resets_version userId other db :
  fst (RefreshTokenService.getUserTokenVersion userId (snd (logout userId db)))
    = Return 1
  /\ (other <> userId ->
      fst (RefreshTokenService.getUserTokenVersion other (snd (logout userId db)))
      = fst (RefreshTokenService.getUserTokenVersion other db)).
Proof.
  rewrite !getUserTokenVersion_run. cbn [fst].
  unfold logout, RefreshTokenService.deleteAllUserRefreshTokens,
    prisma.refreshToken.deleteMany, rows_of.
  cbn [snd Db.refreshTokens Db.with_refreshTokens].
  rewrite !rows_of_after_delete, N.eqb_refl.
  split; [reflexivity|]. intros Hne.
  rewrite (proj2 (N.eqb_neq _ _) Hne). reflexivity.
Qed.

(** X14.  A rotation returns a pair only when every check passed: the
    token is stored, the row has not expired, the token verifies against the
    refresh secret, its user exists and its version claim is the row's; the
    pair is the one issued for that user at the row's version plus one. *)
Theorem rotation_returns_only_after_all_checks config env token db tokens :
  fst (refreshToken config env token db) = Return tokens ->
  exists r c u,
    find (prisma.refreshToken.by_token token) (Db.refreshTokens db) = Some r
    /\ Env.clock env <= RefreshTokenData.expiresAt r
    /\ jwt_verify (Env.clock env) token (Config.JWT_REFRESH_SECRET config)
         "auth-api" "auth-client" = inr c
    /\ find (prisma.user.by_id (Claims.userId c)) (Db.users db) = Some u
    /\ Claims.tokenVersion c = Some (RefreshTokenData.tokenVersion r)
    /\ tokens = generateTokens config env (User.id u) (User.email u)
                  (RefreshTokenData.tokenVersion r + 1).
Proof.
  unfold refreshToken, prisma.transaction.
  destruct (refreshToken_body config env token db) as [[a|e] db'] eqn:E;
    cbn [fst]; [|discriminate].
  intros H. injection H as ->. revert E. unfold refreshToken_body.
  unfold bind at 1. unfold prisma.refreshToken.findUnique at 1.
  destruct (find _ (Db.refreshTokens db)) as [r|] eqn:Hfind; [|discriminate].
  destruct (Z.ltb_spec (RefreshTokenData.expiresAt r) (Env.clock env)) as [|Hlive].
  { unfold bind, prisma.refreshToken.delete.
    destruct (existsb _ _); discriminate. }
  unfold bind at 1. unfold verifyRefreshToken, refreshTokenSecret.
  destruct (jwt_verify _ _ _ _ _) as [err|c] eqn:Hver; [discriminate|].
  unfold ret at 1. unfold bind at 1.
  unfold UserService.findUserById, prisma.user.findUnique.
  destruct (find _ (Db.users db)) as [u|] eqn:Hu; [|discriminate].
  destruct (Claims.tokenVersion c) as [v|] eqn:Hv; [|discriminate].
  destruct (Z.eqb_spec v (RefreshTokenData.tokenVersion r)) as [->|];
    [|discriminate].
  cbn [negb].
  unfold bind, prisma.refreshToken.deleteMany, prisma.refreshToken.create.
  destruct (_ || _); [discriminate|].
  destruct (negb _); [discriminate|].
  unfold ret. intros E. injection E as <- _.
  exists r, c, u. repeat split; auto.
Qed.

(** X15.  After a successful rotation of a row with version at least [1],
    the version reported for the user is the row's version plus one. *)
Theorem rotation_bumps_reported_version config env db tok r c u :
  store_wf config db ->
  find (prisma.refreshToken.by_token tok) (Db.refreshTokens db) = Some r ->
  (RefreshTokenData.expiresAt r <? Env.clock env) = false ->
  jwt_verify (Env.clock env) tok (Config.JWT_REFRESH_SECRET config)
    "auth-api" "auth-client" = inr c ->
  find (prisma.user.by_id (Claims.userId c)) (Db.users db) = Some u ->
  existsb (prisma.refreshToken.by_sessionId (newSessionId env))
    (rows_of_others (RefreshTokenData.userId r) db) = false ->
  1 <= RefreshTokenData.tokenVersion r ->
  fst (RefreshTokenService.getUserTokenVersion (RefreshTokenData.userId r)
         (snd (refreshToken config env tok db)))
  = Return (RefreshTokenData.tokenVersion r + 1).
Proof.
  intros Hwf Hfind Hlive Hver Huser Hsid Hpos.
  rewrite (rotation_succeeds config env db tok r c u
             Hwf Hfind Hlive Hver Huser Hsid).
  rewrite getUserTokenVersion_run. cbn [fst snd]. unfold rows_of.
  cbn [Db.refreshTokens]. rewrite filter_app, filter_others_nil.
  cbn [filter app]. unfold prisma.refreshToken.by_userId at 1.
  unfold rotated_row at 1. cbn [RefreshTokenData.userId].
  rewrite N.eqb_refl. cbn [map reported_version fold_right].
  unfold rotated_row. cbn [RefreshTokenData.tokenVersion].
  destruct (Z.eqb_spec (RefreshTokenData.tokenVersion r + 1) 0); [lia|].
  reflexivity.
Qed.

(** X16.  After a successful rotation, another stored refresh token of the
    same user (a second device) is no longer found: rotating it fails with
    [SessionNotFound] and changes nothing.  The newly issued token is assumed
    to differ from it. *)
Theorem rotation_revokes_sibling_sessions config env env' db tok r c u tok' r' :
  store_wf config db ->
  find (prisma.refreshToken.by_token tok) (Db.refreshTokens db) = Some r ->
  (RefreshTokenData.expiresAt r <? Env.clock env) = false ->
  jwt_verify (Env.clock env) tok (Config.JWT_REFRESH_SECRET config)
    "auth-api" "auth-client" = inr c ->
  find (prisma.user.by_id (Claims.userId c)) (Db.users db) = Some u ->
  existsb (prisma.refreshToken.by_sessionId (newSessionId env))
    (rows_of_others (RefreshTokenData.userId r) db) = false ->
  find (prisma.refreshToken.by_token tok') (Db.refreshTokens db) = Some r' ->
  RefreshTokenData.userId r' = RefreshTokenData.userId r ->
  tok' <> AuthTokens.refreshToken
            (generateTokens config env (RefreshTokenData.userId r)
               (User.email u) (RefreshTokenData.tokenVersion r + 1)) ->
  refreshToken config env' tok' (snd (refreshToken config env tok db))
  = (Throw SessionNotFound, snd (refreshToken config env tok db)).
Proof.
  intros Hwf Hfind Hlive Hver Huser Hsid Hfind' Hsame Hnew.
  rewrite (rotation_succeeds config env db tok r c u
             Hwf Hfind Hlive Hver Huser Hsid).
  cbn [snd]. apply lookup_fails. cbn [Db.refreshTokens].
  apply find_none_intro. intros x Hx.
  destruct (prisma.refreshToken.by_token tok' x) eqn:E; [|reflexivity].
  apply Token_eqb_eq in E.
  destruct (lookup_token _ _ _ Hfind') as [Hin' Htok'].
  apply in_app_or in Hx. destruct Hx as [Hx|[Hx|[]]].
  - apply filter_In in Hx. destruct Hx as [Hxin Hne].
    pose proof (store_wf_row config db x Hwf Hxin) as Wx.
    pose proof (store_wf_row config db r' Hwf Hin') as Wr.
    unfold wf_row in Wx, Wr. rewrite E in Wx. rewrite Htok' in Wr.
    destruct tok' as [c' key|text]; [|discriminate].
    apply andb_true_iff in Wx. destruct Wx as [Wx _].
    apply andb_true_iff in Wx. destruct Wx as [_ Wx].
    apply andb_true_iff in Wr. destruct Wr as [Wr _].
    apply andb_true_iff in Wr. destruct Wr as [_ Wr].
    apply N.eqb_eq in Wx, Wr.
    unfold prisma.refreshToken.by_userId in Hne.
    rewrite <- Wx, Wr, Hsame, N.eqb_refl in Hne. discriminate.
  - subst x. unfold rotated_row in E. cbn [RefreshTokenData.token] in E.
    congruence.
Qed.

(** ** Accounts *)

Lemma all_plain_app a b :
  UserService.all_plain (a ++ b) = UserService.all_plain a && UserService.all_plain b.
Proof.
  induction a as [|c a IH]; [reflexivity|].
  cbn [String.append UserService.all_plain]. rewrite IH, andb_assoc. reflexivity.
Qed.

Lemma dot_before_end_shape s :
  UserService.dot_before_end s = true
  <-> exists p q, s = (p ++ "." ++ q)%string /\ q <> EmptyString.
Proof.
  split.
  - induction s as [|c rest IH]; [discriminate|].
    destruct rest as [|c' rest']; [discriminate|].
    change (UserService.dot_before_end (String c (String c' rest')))
      with (Ascii.eqb c "." || UserService.dot_before_end (String c' rest')).
    intros H. apply orb_true_iff in H. destruct H as [H|H].
    + apply Ascii.eqb_eq in H. subst c.
      exists EmptyString, (String c' rest'). split; [reflexivity|discriminate].
    + destruct (IH H) as (p & q & E & Hq).
      exists (String c p), q. split; [|exact Hq].
      exact (f_equal (String c) E).
  - intros (p & q & -> & Hq). induction p as [|c p IH].
    + destruct q as [|c' q']; [congruence|]. reflexivity.
    + cbn [String.append] in *.
      destruct (p ++ String "." q)%string as [|c' t] eqn:E.
      { destruct p; discriminate E. }
      change (UserService.dot_before_end (String c (String c' t)))
        with (Ascii.eqb c "." || UserService.dot_before_end (String c' t)).
      rewrite IH. apply orb_true_r.
Qed.

Lemma email_from_shape seen s :
  UserService.email_from seen s = true
  <-> exists a rest,
        s = (a ++ "@" ++ rest)%string
        /\ UserService.all_plain a = true
        /\ (seen = true \/ a <> EmptyString)
        /\ UserService.all_plain rest = true
        /\ exists x tail, rest = String x tail
                          /\ UserService.dot_before_end tail = true.
Proof.
  split.
  - revert seen. induction s as [|c rest IH]; intros seen; [discriminate|].
    cbn [UserService.email_from].
    destruct (Ascii.eqb_spec c "@") as [->|Hc].
    + intros H. apply andb_true_iff in H. destruct H as [H Hdot].
      apply andb_true_iff in H. destruct H as [Hseen Hplain].
      exists EmptyString, rest. repeat split; auto.
      destruct rest as [|x tail]; [discriminate|]. exists x, tail. auto.
    + intros H. apply andb_true_iff in H. destruct H as [Hp H].
      destruct (IH true H) as (a & rest' & -> & Ha & _ & Hr & Hd).
      exists (String c a), rest'. repeat split; auto.
      * cbn [UserService.all_plain]. rewrite Hp, Ha. reflexivity.
      * right. discriminate.
  - intros (a & rest & -> & Ha & Hseen & Hr & x & tail & -> & Hd).
    revert seen Hseen. induction a as [|c a IH]; intros seen Hseen.
    + cbn [String.append UserService.email_from].
      rewrite Ascii.eqb_refl.
      destruct Hseen as [->|Hne]; [|congruence].
      rewrite Hr, Hd. reflexivity.
    + cbn [String.append UserService.email_from].
      cbn [UserService.all_plain] in Ha. apply andb_true_iff in Ha.
      destruct Ha as [Hc Ha].
      destruct (Ascii.eqb_spec c "@") as [->|_]; [discriminate Hc|].
      rewrite Hc. apply (IH Ha true). left. reflexivity.
Qed.

(** X17.  [isValidEmail] accepts exactly the texts of the form
    [a@b.c] with [a], [b], [c] non-empty and free of white space and ["@"]
    (the pattern [/^[^\s@]+@[^\s@]+\.[^\s@]+$/] on ASCII text). *)
Theorem isValidEmail_matches_pattern email :
  UserService.isValidEmail email = true <-> email_shape email.
Proof.
  unfold UserService.isValidEmail, email_shape.
  rewrite email_from_shape. split.
  - intros (a & rest & -> & Ha & [Hs|Hne] & Hr & x & tail & -> & Hd);
      [discriminate|].
    apply dot_before_end_shape in Hd. destruct Hd as (p & q & -> & Hq).
    exists a, (String x p), q.
    change (String x (p ++ "." ++ q))%string
      with (String x p ++ "." ++ q)%string in *.
    rewrite all_plain_app in Hr. apply andb_true_iff in Hr.
    destruct Hr as [Hb Hq'].
    change ("." ++ q)%string with (String "." q) in Hq'.
    cbn [UserService.all_plain] in Hq'. apply andb_true_iff in Hq'.
    repeat split; try tauto; discriminate.
  - intros (a & b & c & -> & Ha & Hb & Hc & Pa & Pb & Pc).
    exists a, (b ++ "." ++ c)%string. repeat split; auto.
    + rewrite all_plain_app, Pb.
      change ("." ++ c)%string with (String "." c).
      cbn [UserService.all_plain]. rewrite Pc. reflexivity.
    + destruct b as [|x p]; [congruence|]. exists x, (p ++ "." ++ c)%string.
      split; [reflexivity|]. apply dot_before_end_shape. exists p, c. auto.
Qed.

(** ** Invariants of the session rows, rule by rule *)

Section Ensures.
Variable P : RefreshTokenData.t -> bool.

Lemma ensures_ret {A} (a : A) (Q : A -> Prop) : Q a -> ensures P (ret a) Q.
Proof.
  intros Ha db H. split; [exact H|]. intros a' E. injection E as <-. exact Ha.
Qed.

Lemma ensures_throw {A} (e : Exn) (Q : A -> Prop) :
  ensures P (@throw Db.t A e) Q.
Proof. intros db H. split; [exact H|]. discriminate. Qed.

Lemma ensures_weaken {A} (m : M Db.t A) (Q Q' : A -> Prop) :
  ensures P m Q -> (forall a, Q a -> Q' a) -> ensures P m Q'.
Proof.
  intros Hm HQ db H. destruct (Hm db H) as [Hinv Hval].
  split; [exact Hinv|]. intros a E. apply HQ, Hval, E.
Qed.

Lemma ensures_bind {A B} (m : M Db.t A) (k : A -> M Db.t B)
  (Q : A -> Prop) (R : B -> Prop) :
  ensures P m Q -> (forall a, Q a -> ensures P (k a) R) ->
  ensures P (bind m k) R.
Proof.
  intros Hm Hk db H. unfold bind. destruct (Hm db H) as [Hinv Hval].
  destruct (m db) as [[a|e] db']; cbn [fst snd] in *.
  - exact (Hk a (Hval a eq_refl) db' Hinv).
  - split; [exact Hinv|]. discriminate.
Qed.

Lemma ensures_try_catch {A} (m : M Db.t A) (h : Exn -> M Db.t A)
  (Q : A -> Prop) :
  ensures P m Q -> (forall e, ensures P (h e) Q) ->
  ensures P (try_catch m h) Q.
Proof.
  intros Hm Hh db H. unfold try_catch. destruct (Hm db H) as [Hinv Hval].
  destruct (m db) as [[a|e] db']; cbn [fst snd] in *.
  - split; [exact Hinv|]. intros a' E. injection E as <-. apply Hval.
    reflexivity.
  - exact (Hh e db' Hinv).
Qed.

Lemma ensures_transaction {A} (m : M Db.t A) (Q : A -> Prop) :
  ensures P m Q -> ensures P (prisma.transaction m) Q.
Proof.
  intros Hm db H. unfold prisma.transaction. destruct (Hm db H) as [Hinv Hval].
  destruct (m db) as [[a|e] db']; cbn [fst snd] in *.
  - split; [exact Hinv|]. intros a' E. injection E as <-. apply Hval.
    reflexivity.
  - split; [exact H|]. discriminate.
Qed.

(** A row that is found satisfies the predicate. *)
Lemma ensures_token_findUnique w :
  ensures P (prisma.refreshToken.findUnique w)
    (fun found => forall r, found = Some r -> P r = true).
Proof.
  intros db H. split; [exact H|]. intros a E r Hr. injection E as <-.
  apply find_some in Hr. exact (proj1 (forallb_forall _ _) H r (proj1 Hr)).
Qed.

(** The version that is found is the version of a row with the predicate. *)
Lemma ensures_token_findFirst w :
  ensures P (prisma.refreshToken.findFirst_tokenVersion_desc w)
    (fun found => forall v, found = Some v ->
       exists r, P r = true /\ RefreshTokenData.tokenVersion r = v).
Proof.
  intros db H. split; [exact H|]. intros a E v Hv. injection E as <-.
  assert (Hsub : forall l r, prisma.refreshToken.first_desc l = Some r -> In r l).
  { induction l as [|x l IH]; [discriminate|]. intros r.
    cbn [prisma.refreshToken.first_desc].
    destruct (prisma.refreshToken.first_desc l) as [r'|].
    - destruct (_ <? _); intros E; injection E as <-;
        [right; apply IH; reflexivity | left; reflexivity].
    - intros E. injection E as <-. left. reflexivity. }
  destruct (prisma.refreshToken.first_desc _) as [r|] eqn:E; [|discriminate].
  injection Hv as <-. exists r. split; [|reflexivity].
  apply Hsub in E. apply filter_In in E.
  exact (proj1 (forallb_forall _ _) H r (proj1 E)).
Qed.

Lemma ensures_token_deleteMany w :
  ensures P (prisma.refreshToken.deleteMany w) (fun _ => True).
Proof.
  intros db H. split; [|auto]. unfold prisma.refreshToken.deleteMany.
  cbn [snd Db.refreshTokens Db.with_refreshTokens].
  apply forallb_filter. exact H.
Qed.

Lemma ensures_token_delete w :
  ensures P (prisma.refreshToken.delete w) (fun _ => True).
Proof.
  intros db H. split; [|auto]. unfold prisma.refreshToken.delete.
  destruct (existsb w (Db.refreshTokens db)); [|exact H].
  cbn [snd Db.refreshTokens Db.with_refreshTokens].
  apply forallb_filter. exact H.
Qed.

Lemma ensures_token_create now tok uid v sid ex :
  (forall i, P (RefreshTokenData.mk i tok uid v sid ex now now) = true) ->
  ensures P (prisma.refreshToken.create now tok uid v sid ex) (fun _ => True).
Proof.
  intros Hrow db H. split; [|auto]. unfold prisma.refreshToken.create.
  destruct (_ || _); [exact H|]. destruct (negb _); [exact H|].
  cbn [snd Db.refreshTokens]. apply forallb_snoc; [exact H | apply Hrow].
Qed.

Lemma ensures_users {A} (m : M Db.t A) :
  (forall db, Db.refreshTokens (snd (m db)) = Db.refreshTokens db) ->
  ensures P m (fun _ => True).
Proof.
  intros Hm db H. split; [|auto]. rewrite Hm. exact H.
Qed.

Lemma ensures_user_findUnique w :
  ensures P (prisma.user.findUnique w) (fun _ => True).
Proof. apply ensures_users. reflexivity. Qed.

Lemma ensures_user_create now mail pw :
  ensures P (prisma.user.create now mail pw) (fun _ => True).
Proof.
  apply ensures_users. intros db. unfold prisma.user.create.
  destruct (existsb _ _); reflexivity.
Qed.

Lemma ensures_user_update i pw t :
  ensures P (prisma.user.update_password i pw t) (fun _ => True).
Proof.
  apply ensures_users. intros db. unfold prisma.user.update_password.
  destruct (existsb _ _); reflexivity.
Qed.

Lemma ensures_user_delete i :
  ensures P (prisma.user.delete i) (fun _ => True).
Proof.
  intros db H. split; [|auto]. unfold prisma.user.delete.
  destruct (existsb _ _); [|exact H]. cbn [snd Db.refreshTokens].
  apply forallb_filter. exact H.
Qed.
End Ensures.

(** Rules for the steps that hold whatever the predicate and the value. *)
Ltac ensures_step :=
  first
    [ apply ensures_throw
    | apply ensures_ret; exact I
    | apply ensures_transaction
    | apply ensures_token_deleteMany
    | apply ensures_token_delete
    | apply ensures_user_findUnique
    | apply ensures_user_create
    | apply ensures_user_update
    | apply ensures_user_delete
    | eapply ensures_weaken; [apply ensures_token_findUnique | intros; exact I]
    | match goal with
      | |- ensures _ (if ?b then _ else _) _ => destruct b
      | |- ensures _ (match ?x with _ => _ end) _ => destruct x
      | |- ensures _ (bind _ _) (fun _ => True) =>
          eapply ensures_bind with (Q := fun _ => True); [|intros ? _]
      | |- ensures _ (try_catch _ _) _ => apply ensures_try_catch; [|intros ?]
      end ].

Section VersionsPositive.
Variable config : Config.t.
Import RefreshTokenService UserService.

Lemma positive_createRefreshToken now tok uid v sid ex :
  1 <= v ->
  ensures version_positive (createRefreshToken now tok uid v sid ex)
    (fun _ => True).
Proof.
  intros Hv. unfold createRefreshToken, cleanupExpiredTokens.
  ensures_step; [ensures_step|].
  apply ensures_token_create. intros i. apply Z.leb_le. exact Hv.
Qed.

Lemma positive_getUserTokenVersion uid :
  ensures version_positive (getUserTokenVersion uid) (fun v => 1 <= v).
Proof.
  unfold getUserTokenVersion.
  eapply ensures_bind; [apply ensures_token_findFirst|].
  intros [v|] Hv; apply ensures_ret; [|lia].
  destruct (Hv v eq_refl) as (r & Hr & <-). apply Z.leb_le in Hr.
  destruct (Z.eqb_spec (RefreshTokenData.tokenVersion r) 0); lia.
Qed.

Lemma positive_register env d :
  ensures version_positive (register config env d) (fun _ => True).
Proof.
  unfold register.
  eapply ensures_bind with (Q := fun _ => True).
  - unfold createUser. repeat ensures_step.
  - intros u _. eapply ensures_bind with (Q := fun _ => True).
    + apply positive_createRefreshToken. lia.
    + intros _ _. ensures_step.
Qed.

Lemma positive_login env d :
  ensures version_positive (login config env d) (fun _ => True).
Proof.
  unfold login, findUserByEmail.
  ensures_step; [ensures_step|].
  ensures_step; [ensures_step|].
  ensures_step; [|ensures_step].
  ensures_step; [ensures_step|].
  eapply ensures_bind; [apply positive_getUserTokenVersion|].
  intros v Hv. cbv zeta.
  eapply ensures_bind with (Q := fun _ => True).
  - apply positive_createRefreshToken. exact Hv.
  - intros _ _. ensures_step.
Qed.

Lemma positive_refreshToken env t :
  ensures version_positive (refreshToken config env t) (fun _ => True).
Proof.
  unfold refreshToken, refreshToken_body, verifyRefreshToken, findUserById.
  ensures_step.
  eapply ensures_bind; [apply ensures_token_findUnique|].
  intros [r|] Hr; [|ensures_step].
  specialize (Hr r eq_refl). apply Z.leb_le in Hr.
  repeat ensures_step.
  apply ensures_token_create. intros i. apply Z.leb_le.
  cbn [RefreshTokenData.tokenVersion]. lia.
Qed.

Lemma positive_after env c db :
  versions_positive db -> versions_positive (after config env c db).
Proof.
  intros H. destruct c; cbn [after].
  - apply (positive_register env userData db H).
  - apply (positive_login env credentials db H).
  - apply (positive_refreshToken env token db H).
  - apply (ensures_token_deleteMany version_positive _ db H).
  - apply (ensures_token_deleteMany version_positive _ db H).
  - assert (E : ensures version_positive
                  (changePassword (Env.clock env) userId currentPassword
                     newPassword) (fun _ => True)).
    { unfold changePassword, findUserById, updatePassword, logout,
        deleteAllUserRefreshTokens. repeat ensures_step. }
    apply (E db H).
  - assert (E : ensures version_positive (deleteUser userId) (fun _ => True)).
    { unfold deleteUser. repeat ensures_step. }
    apply (E db H).
  - assert (E : ensures version_positive
                  (findRefreshToken (Env.clock env) token) (fun _ => True)).
    { unfold findRefreshToken, deleteRefreshToken.
      ensures_step; [ensures_step|]. repeat ensures_step. }
    apply (E db H).
  - apply (ensures_token_deleteMany version_positive _ db H).
Qed.
End VersionsPositive.

(** X18.  In every reachable store each session row has a version of at
    least [1], and so has the version reported for its user. *)
Theorem reachable_versions_start_at_one config db r :
  reachable config db ->
  In r (Db.refreshTokens db) ->
  1 <= RefreshTokenData.tokenVersion r
  /\ 1 <= reported_version
            (map RefreshTokenData.tokenVersion
               (rows_of (RefreshTokenData.userId r) db)).
Proof.
  intros Hreach.
  assert (Hpos : versions_positive db).
  { induction Hreach as [|db env c _ IH]; [reflexivity|].
    apply positive_after. apply IH. }
  intros Hin. split.
  - apply Z.leb_le. exact (proj1 (forallb_forall _ _) Hpos r Hin).
  - pose proof (positive_getUserTokenVersion (RefreshTokenData.userId r) db Hpos)
      as [_ Hv].
    apply Hv. rewrite getUserTokenVersion_run. reflexivity.
Qed.

(** ** Registration, login and password change *)

Lemma valid_email_not_empty email :
  UserService.isValidEmail email = true -> String.eqb email EmptyString = false.
Proof. destruct email; [discriminate | reflexivity]. Qed.

Lemma long_password_not_empty password :
  (8 <= String.length password)%nat -> String.eqb password EmptyString = false.
Proof. destruct password; cbn; [lia | reflexivity]. Qed.

(** [createUser] on input that passes its three checks. *)
Lemma createUser_checked now d db :
  UserService.isValidEmail (RegisterRequest.email d) = true ->
  (8 <= String.length (RegisterRequest.password d))%nat ->
  UserService.createUser now d db
  = match find (prisma.user.by_email
                  (UserService.toLowerCase (RegisterRequest.email d)))
            (Db.users db) with
    | Some _ => (Throw (ConflictError "User with this email already exists"), db)
    | None =>
        let user :=
          User.mk (Db.sequence db)
            (UserService.toLowerCase (RegisterRequest.email d))
            (Bcrypt 12 (RegisterRequest.password d)) now now in
        (Return user,
         Db.mk (Db.users db ++ [user]) (Db.refreshTokens db)
           (N.succ (Db.sequence db)))
    end.
Proof.
  intros Hmail Hpw. unfold UserService.createUser.
  rewrite (valid_email_not_empty _ Hmail), (long_password_not_empty _ Hpw), Hmail.
  cbn [orb negb].
  rewrite (proj2 (Nat.ltb_ge _ _) Hpw).
  unfold bind, prisma.user.findUnique, prisma.user.create.
  destruct (find _ (Db.users db)) as [u|] eqn:E; [reflexivity|].
  rewrite (existsb_false_forall _ _ (find_none _ _ E)). reflexivity.
Qed.

(** [createUser] returns only on input that passes its checks. *)
Lemma createUser_returns now d db u :
  fst (UserService.createUser now d db) = Return u ->
  UserService.isValidEmail (RegisterRequest.email d) = true
  /\ (8 <= String.length (RegisterRequest.password d))%nat.
Proof.
  unfold UserService.createUser.
  destruct (_ || _); [discriminate|].
  destruct (UserService.isValidEmail _); [|discriminate]. cbn [negb].
  destruct (Nat.ltb_spec (String.length (RegisterRequest.password d)) 8);
    [discriminate|]. auto.
Qed.

Lemma register_conflict config env d db u :
  UserService.isValidEmail (RegisterRequest.email d) = true ->
  (8 <= String.length (RegisterRequest.password d))%nat ->
  find (prisma.user.by_email (UserService.toLowerCase (RegisterRequest.email d)))
    (Db.users db) = Some u ->
  register config env d db
  = (Throw (ConflictError "User with this email already exists"), db).
Proof.
  intros Hmail Hpw Hfind. unfold register, bind.
  rewrite (createUser_checked _ _ _ Hmail Hpw), Hfind. reflexivity.
Qed.

(** X19.  [register] with data that passes validation and an email some
    stored user already has (compared in lower case) throws [ConflictError]
    and changes nothing. *)
Theorem register_rejects_known_email config env d db u :
  UserService.isValidEmail (RegisterRequest.email d) = true ->
  (8 <= String.length (RegisterRequest.password d))%nat ->
  In u (Db.users db) ->
  User.email u = UserService.toLowerCase (RegisterRequest.email d) ->
  register config env d db
  = (Throw (ConflictError "User with this email already exists"), db).
Proof.
  intros Hmail Hpw Hin Hu.
  destruct (find (prisma.user.by_email
                    (UserService.toLowerCase (RegisterRequest.email d)))
              (Db.users db)) as [x|] eqn:Hfind.
  - exact (register_conflict config env d db x Hmail Hpw Hfind).
  - pose proof (find_none _ _ Hfind u Hin) as Hno.
    unfold prisma.user.by_email in Hno.
    rewrite Hu, String.eqb_refl in Hno. discriminate.
Qed.

Lemma find_snoc_first {A} (p : A -> bool) (l : list A) (a : A) :
  find p l = None -> p a = true -> find p (l ++ [a]) = Some a.
Proof.
  induction l as [|b l IH]; cbn [find app]; intros Hn Ha.
  - rewrite Ha. reflexivity.
  - destruct (p b); [discriminate|]. apply IH; assumption.
Qed.

(** X20.  When [register] returns, the account is stored under the
    lower-cased email with a hash that accepts the password, no account had
    that email before, [findUserByEmail] finds it under any spelling of the
    letters' case, the pair is issued at version [1], and a session row for
    the refresh token expires seven days after the call. *)
Theorem register_creates_account_and_session config env d db u tokens :
  fst (register config env d db) = Return (u, tokens) ->
  let db' := snd (register config env d db) in
  User.email u = UserService.toLowerCase (RegisterRequest.email d)
  /\ UserService.validatePassword (RegisterRequest.password d) (User.password u)
     = true
  /\ find (prisma.user.by_email (User.email u)) (Db.users db) = None
  /\ (forall email,
        UserService.toLowerCase email = User.email u ->
        fst (UserService.findUserByEmail email db') = Return (Some u))
  /\ tokens = generateTokens config env (User.id u) (User.email u) 1
  /\ exists i,
       In (RefreshTokenData.mk i (AuthTokens.refreshToken tokens) (User.id u) 1
             (newSessionId env) (Env.clock env + SEVEN_DAYS)
             (Env.clock env) (Env.clock env))
          (Db.refreshTokens db').
Proof.
  intros H db'. subst db'. revert H. unfold register.
  unfold bind at 1 2 3 4 5.
  destruct (UserService.createUser (Env.clock env) d db) as [[u'|e] db1] eqn:Hc;
    [|discriminate].
  destruct (createUser_returns _ _ _ u' (eq_trans (f_equal fst Hc) eq_refl))
    as [Hmail Hpw].
  rewrite (createUser_checked _ _ _ Hmail Hpw) in Hc.
  destruct (find _ (Db.users db)) as [x|] eqn:Hfind; [discriminate|].
  cbv zeta in Hc. injection Hc as <- <-.
  unfold bind. rewrite createRefreshToken_run.
  unfold prisma.refreshToken.create.
  cbn [Db.refreshTokens Db.with_refreshTokens Db.users Db.sequence User.id
         User.email].
  destruct (_ || _); [discriminate|]. destruct (negb _); [discriminate|].
  cbn [fst snd ret]. intros E. injection E as <- <-.
  cbn [User.email User.password User.id Db.users Db.refreshTokens].
  split; [reflexivity|]. split.
  { unfold UserService.validatePassword, bcrypt_compare.
    apply String.eqb_refl. }
  split; [exact Hfind|]. split; [|split; [reflexivity|]].
  - intros email Hl. unfold UserService.findUserByEmail, prisma.user.findUnique.
    cbn [fst Db.users]. rewrite Hl. f_equal.
    apply find_snoc_first; [exact Hfind|].
    unfold prisma.user.by_email. apply String.eqb_refl.
  - eexists. apply in_or_app. right. left. reflexivity.
Qed.

(** [login], step by step. *)
Lemma login_run config env d db :
  login config env d db
  = if String.eqb (LoginRequest.email d) EmptyString
       || String.eqb (LoginRequest.password d) EmptyString
    then (Throw (ValidationError "Email and password are required"), db)
    else
      match find (prisma.user.by_email
                    (UserService.toLowerCase (LoginRequest.email d)))
              (Db.users db) with
      | None => (Throw (AuthenticationError "Invalid email or password"), db)
      | Some user =>
          if UserService.validatePassword (LoginRequest.password d)
               (User.password user)
          then
            let v := reported_version
                       (map RefreshTokenData.tokenVersion
                          (rows_of (User.id user) db)) in
            let tokens :=
              generateTokens config env (User.id user) (User.email user) v in
            match RefreshTokenService.createRefreshToken (Env.clock env)
                    (AuthTokens.refreshToken tokens) (User.id user) v
                    (newSessionId env) (Env.clock env + SEVEN_DAYS) db with
            | (Return _, db') => (Return (user, tokens), db')
            | (Throw e, db') => (Throw e, db')
            end
          else (Throw (AuthenticationError "Invalid email or password"), db)
      end.
Proof.
  unfold login. destruct (_ || _); [reflexivity|].
  unfold bind at 1. unfold UserService.findUserByEmail, prisma.user.findUnique.
  destruct (find _ (Db.users db)) as [user|]; [|reflexivity].
  destruct (UserService.validatePassword _ _); [|reflexivity]. cbn [negb].
  unfold bind at 1. rewrite getUserTokenVersion_run. cbv zeta.
  unfold bind.
  destruct (RefreshTokenService.createRefreshToken _ _ _ _ _ _ db)
    as [[row|e] db']; reflexivity.
Qed.

(** X21.  [login] for an unknown email and for a wrong password throws the
    same error, "Invalid email or password", and changes nothing. *)
Theorem login_failures_look_alike config env d db :
  String.eqb (LoginRequest.email d) EmptyString = false ->
  String.eqb (LoginRequest.password d) EmptyString = false ->
  (find (prisma.user.by_email (UserService.toLowerCase (LoginRequest.email d)))
     (Db.users db) = None
   \/ exists user,
        find (prisma.user.by_email
                (UserService.toLowerCase (LoginRequest.email d)))
          (Db.users db) = Some user
        /\ UserService.validatePassword (LoginRequest.password d)
             (User.password user) = false) ->
  login config env d db
  = (Throw (AuthenticationError "Invalid email or password"), db).
Proof.
  intros He Hp H. rewrite login_run, He, Hp. cbn [orb].
  destruct H as [->|(user & -> & ->)]; reflexivity.
Qed.

(** X22.  When [login] returns, the password was accepted, the pair is
    issued at the version reported for the user before the call, one session
    row is added for it, only expired rows of that user are purged, and every
    unexpired row, of any user, is kept. *)
Theorem login_adds_a_session_and_keeps_live_ones config env d db user tokens :
  fst (login config env d db) = Return (user, tokens) ->
  let db' := snd (login config env d db) in
  let v := reported_version
             (map RefreshTokenData.tokenVersion (rows_of (User.id user) db)) in
  UserService.validatePassword (LoginRequest.password d) (User.password user)
    = true
  /\ tokens = generateTokens config env (User.id user) (User.email user) v
  /\ Db.refreshTokens db'
     = filter (fun r => negb (expired (Env.clock env) r
                              && prisma.refreshToken.by_userId (User.id user) r))
         (Db.refreshTokens db)
       ++ [RefreshTokenData.mk (Db.sequence db) (AuthTokens.refreshToken tokens)
             (User.id user) v (newSessionId env) (Env.clock env + SEVEN_DAYS)
             (Env.clock env) (Env.clock env)]
  /\ (forall r, In r (Db.refreshTokens db) ->
                expired (Env.clock env) r = false ->
                In r (Db.refreshTokens db')).
Proof.
  intros H db' v. subst db' v. revert H. rewrite login_run.
  destruct (_ || _); [discriminate|].
  destruct (find _ (Db.users db)) as [u|]; [|discriminate].
  destruct (UserService.validatePassword _ _) eqn:Hpw; [|discriminate].
  cbv zeta. rewrite createRefreshToken_run. unfold prisma.refreshToken.create.
  cbn [Db.refreshTokens Db.with_refreshTokens Db.users Db.sequence].
  destruct (_ || _); [discriminate|]. destruct (negb _); [discriminate|].
  cbn [fst snd Db.refreshTokens]. intros E. injection E as <- <-.
  split; [exact Hpw|]. split; [reflexivity|]. split; [reflexivity|].
  intros r Hin Hlive. apply in_or_app. left. apply filter_In.
  split; [exact Hin|]. rewrite Hlive. reflexivity.
Qed.

Lemma find_updated (i : Id) (pw : Hash) (t : Time) (users : list User.t) u :
  find (prisma.user.by_id i) users = Some u ->
  find (prisma.user.by_id i)
    (map (fun x => if prisma.user.by_id i x
                   then User.mk (User.id x) (User.email x) pw (User.createdAt x) t
                   else x) users)
  = Some (User.mk (User.id u) (User.email u) pw (User.createdAt u) t).
Proof.
  induction users as [|x l IH]; [discriminate|].
  cbn [find map]. destruct (prisma.user.by_id i x) eqn:E.
  - intros H. injection H as <-.
    unfold prisma.user.by_id in *. cbn [User.id]. rewrite E. reflexivity.
  - intros H. rewrite E. apply IH. exact H.
Qed.

(** [changePassword], step by step. *)
Lemma changePassword_run now userId cur new db :
  changePassword now userId cur new db
  = match find (prisma.user.by_id userId) (Db.users db) with
    | None => (Throw (AuthenticationError "User not found"), db)
    | Some user =>
        if UserService.validatePassword cur (User.password user) then
          if (String.length new <? 8)%nat then
            (Throw (ValidationError "Password must be at least 8 characters long"),
             db)
          else
            (Return tt,
             Db.mk
               (map (fun x =>
                       if prisma.user.by_id userId x
                       then User.mk (User.id x) (User.email x) (Bcrypt 12 new)
                              (User.createdAt x) now
                       else x) (Db.users db))
               (rows_of_others userId db) (Db.sequence db))
        else (Throw (AuthenticationError "Current password is incorrect"), db)
    end.
Proof.
  unfold changePassword. unfold bind at 1.
  unfold UserService.findUserById, prisma.user.findUnique.
  destruct (find _ (Db.users db)) as [user|] eqn:Hu; [|reflexivity].
  destruct (UserService.validatePassword _ _); [|reflexivity]. cbn [negb].
  unfold bind at 1. unfold UserService.updatePassword. unfold bind at 1.
  unfold prisma.user.findUnique. rewrite Hu.
  destruct (String.length new <? 8)%nat; [reflexivity|].
  unfold prisma.user.update_password. rewrite (find_existsb _ _ _ Hu).
  reflexivity.
Qed.

(** X23.  [changePassword] changes all or nothing: when it throws the
    store is as before; when it returns, the current password was accepted,
    the new one has at least eight characters and is accepted by the stored
    hash, and no session row of the user is left. *)
Theorem changePassword_is_all_or_nothing now userId cur new db :
  (forall e, fst (changePassword now userId cur new db) = Throw e ->
             snd (changePassword now userId cur new db) = db)
  /\ (fst (changePassword now userId cur new db) = Return tt ->
      let db' := snd (changePassword now userId cur new db) in
      rows_of userId db' = []
      /\ (8 <= String.length new)%nat
      /\ exists user user',
           find (prisma.user.by_id userId) (Db.users db) = Some user
           /\ UserService.validatePassword cur (User.password user) = true
           /\ find (prisma.user.by_id userId) (Db.users db') = Some user'
           /\ User.email user' = User.email user
           /\ UserService.validatePassword new (User.password user') = true).
Proof.
  rewrite changePassword_run.
  destruct (find _ (Db.users db)) as [user|] eqn:Hu.
  2:{ split; [reflexivity | discriminate]. }
  destruct (UserService.validatePassword cur _) eqn:Hcur.
  2:{ split; [reflexivity | discriminate]. }
  destruct (Nat.ltb_spec (String.length new) 8).
  { split; [reflexivity | discriminate]. }
  split; [discriminate|]. intros _. cbn [snd]. cbv zeta.
  split; [apply filter_others_nil|]. split; [assumption|].
  exists user. eexists. cbn [Db.users].
  rewrite (find_updated _ _ _ _ _ Hu).
  repeat split; auto.
  unfold UserService.validatePassword, bcrypt_compare. cbn [User.password].
  apply String.eqb_refl.
Qed.

Lemma deleteUser_run userId db :
  UserService.deleteUser userId db
  = match find (prisma.user.by_id userId) (Db.users db) with
    | None => (Throw (NotFoundError "User not found"), db)
    | Some _ =>
        (Return tt,
         Db.mk (filter (fun x => negb (prisma.user.by_id userId x)) (Db.users db))
           (rows_of_others userId db) (Db.sequence db))
    end.
Proof.
  unfold UserService.deleteUser, bind, prisma.user.findUnique.
  destruct (find _ (Db.users db)) as [u|] eqn:Hu; [|reflexivity].
  unfold prisma.user.delete. rewrite (find_existsb _ _ _ Hu). reflexivity.
Qed.

(** X24.  After a successful [deleteUser] the user is not found any more:
    [getUserProfile] and a second [deleteUser] throw [NotFoundError], and
    [changePassword] throws "User not found". *)
Theorem deleteUser_removes_the_account userId db :
  fst (UserService.deleteUser userId db) = Return tt ->
  let db' := snd (UserService.deleteUser userId db) in
  find (prisma.user.by_id userId) (Db.users db') = None
  /\ fst (getUserProfile userId db') = Throw (NotFoundError "User not found")
  /\ fst (UserService.deleteUser userId db')
     = Throw (NotFoundError "User not found")
  /\ (forall now cur new,
        fst (changePassword now userId cur new db')
        = Throw (AuthenticationError "User not found")).
Proof.
  rewrite (deleteUser_run userId db).
  destruct (find _ (Db.users db)) as [u|] eqn:Hu; [|discriminate].
  intros _. cbn [snd]. cbv zeta.
  assert (Hgone : find (prisma.user.by_id userId)
                    (filter (fun x => negb (prisma.user.by_id userId x))
                       (Db.users db)) = None).
  { apply find_filter_none. intros a _ H. rewrite H. reflexivity. }
  split; [exact Hgone|]. split; [|split].
  - unfold getUserProfile, bind, prisma.user.findUnique. cbn [Db.users].
    rewrite Hgone. reflexivity.
  - rewrite deleteUser_run. cbn [Db.users]. rewrite Hgone. reflexivity.
  - intros now cur new. rewrite changePassword_run. cbn [Db.users].
    rewrite Hgone. reflexivity.
Qed.

(** The errors a rotation can throw. *)
Lemma rotation_errors config env token db e :
  fst (refreshToken config env token db) = Throw e ->
  In e [SessionNotFound; RefreshTokenExpired; UserNotFound;
        TokenVersionMismatch; prisma.P2002; prisma.P2003; prisma.P2025].
Proof.
  unfold refreshToken, prisma.transaction.
  destruct (refreshToken_body config env token db) as [[a|e'] db'] eqn:E;
    cbn [fst]; [discriminate|].
  intros H. injection H as ->. revert E. unfold refreshToken_body.
  unfold bind at 1. unfold prisma.refreshToken.findUnique at 1.
  destruct (find _ (Db.refreshTokens db)) as [r|].
  2:{ intros E. injection E as <- _. cbn. auto. }
  destruct (RefreshTokenData.expiresAt r <? Env.clock env).
  { unfold bind, prisma.refreshToken.delete.
    destruct (existsb _ _); intros E; injection E as <- _; cbn; auto 10. }
  unfold bind at 1. unfold verifyRefreshToken.
  destruct (jwt_verify _ _ _ _ _) as [err|c].
  { intros E. injection E as <- _. cbn. auto. }
  unfold ret at 1. unfold bind at 1.
  unfold UserService.findUserById, prisma.user.findUnique.
  destruct (find _ (Db.users db)) as [u|].
  2:{ intros E. injection E as <- _. cbn. auto. }
  destruct (negb _).
  { intros E. injection E as <- _. cbn. auto 10. }
  unfold bind, prisma.refreshToken.deleteMany, prisma.refreshToken.create.
  destruct (_ || _); [intros E; injection E as <- _; cbn; auto 10|].
  destruct (negb _); [intros E; injection E as <- _; cbn; auto 10|].
  discriminate.
Qed.

(** X25.  Whatever a rotation throws is answered by [formatError] either
    with status 401, code [AUTHENTICATION_ERROR] and one of four messages,
    or, for a database error, with status 500 and code [INTERNAL_ERROR];
    never with [INVALID_TOKEN] or [TOKEN_EXPIRED]. *)
Theorem rotation_failure_answers config env token db e :
  fst (refreshToken config env token db) = Throw e ->
  (ApiError.statusCode (formatError e) = 401
   /\ ApiError.code (formatError e) = "AUTHENTICATION_ERROR"%string
   /\ In (ApiError.message (formatError e))
        ["Invalid or expired refresh token"; "Refresh token has expired";
         "User not found"; "Invalid refresh token version"]%string)
  \/ formatError e = ApiError.mk 500 "Internal server error" "INTERNAL_ERROR".
Proof.
  intros H. apply rotation_errors in H. cbn [In] in H.
  destruct H as [<-|[<-|[<-|[<-|[<-|[<-|[<-|[]]]]]]]];
    cbn; auto 10.
Qed.

(** [register] on input that passes the checks of [createUser], for an
    email that is not known yet. *)
Lemma register_run config env d db :
  UserService.isValidEmail (RegisterRequest.email d) = true ->
  (8 <= String.length (RegisterRequest.password d))%nat ->
  find (prisma.user.by_email (UserService.toLowerCase (RegisterRequest.email d)))
    (Db.users db) = None ->
  let user :=
    User.mk (Db.sequence db) (UserService.toLowerCase (RegisterRequest.email d))
      (Bcrypt 12 (RegisterRequest.password d)) (Env.clock env) (Env.clock env) in
  let tokens := generateTokens config env (User.id user) (User.email user) 1 in
  register config env d db
  = match RefreshTokenService.createRefreshToken (Env.clock env)
            (AuthTokens.refreshToken tokens) (User.id user) 1
            (newSessionId env) (Env.clock env + SEVEN_DAYS)
            (Db.mk (Db.users db ++ [user]) (Db.refreshTokens db)
               (N.succ (Db.sequence db))) with
    | (Return _, db') => (Return (user, tokens), db')
    | (Throw e, db') => (Throw e, db')
    end.
Proof.
  intros Hmail Hpw Hfind. cbv zeta. unfold register. unfold bind at 1.
  rewrite (createUser_checked _ _ _ Hmail Hpw), Hfind. cbv zeta.
  unfold bind.
  destruct (RefreshTokenService.createRefreshToken _ _ _ _ _ _ _)
    as [[row|e] db']; reflexivity.
Qed.

(** X26.  [register] is not atomic: when the generated session id is
    already in use, the insert of the session row fails after the account
    has been created; the account stays, and registering again with the same
    data throws [ConflictError]. *)
Theorem register_is_not_atomic config env env' d db :
  UserService.isValidEmail (RegisterRequest.email d) = true ->
  (8 <= String.length (RegisterRequest.password d))%nat ->
  find (prisma.user.by_email (UserService.toLowerCase (RegisterRequest.email d)))
    (Db.users db) = None ->
  existsb (prisma.refreshToken.by_sessionId (newSessionId env))
    (filter (fun r => negb (expired (Env.clock env) r
                             && prisma.refreshToken.by_userId (Db.sequence db) r))
       (Db.refreshTokens db)) = true ->
  let db' := snd (register config env d db) in
  fst (register config env d db) = Throw prisma.P2002
  /\ Db.users db'
     = Db.users db
       ++ [User.mk (Db.sequence db)
             (UserService.toLowerCase (RegisterRequest.email d))
             (Bcrypt 12 (RegisterRequest.password d))
             (Env.clock env) (Env.clock env)]
  /\ register config env' d db'
     = (Throw (ConflictError "User with this email already exists"), db').
Proof.
  intros Hmail Hpw Hfind Hsid db'. subst db'.
  rewrite (register_run config env d db Hmail Hpw Hfind). cbv zeta.
  rewrite createRefreshToken_run. unfold prisma.refreshToken.create.
  cbn [Db.refreshTokens Db.with_refreshTokens Db.users Db.sequence User.id].
  rewrite Hsid, orb_true_r. cbn [fst snd Db.users].
  split; [reflexivity|]. split; [reflexivity|].
  apply (register_conflict config env' d _
           (User.mk (Db.sequence db)
              (UserService.toLowerCase (RegisterRequest.email d))
              (Bcrypt 12 (RegisterRequest.password d))
              (Env.clock env) (Env.clock env)) Hmail Hpw).
  cbn [Db.users]. apply find_snoc_first; [exact Hfind|].
  unfold prisma.user.by_email. apply String.eqb_refl.
Qed.

(** ** The properties on the concrete run *)

Lemma shared_secret_lets_refresh_token_authenticate_witness :
  validateAccessToken Sample.shared 2000
    (AuthTokens.refreshToken
       (generateTokens Sample.shared Demo.at_register 0%N "u1@example.com" 1))
    Demo.registered
  = (Return (Identity.mk 0%N None), Demo.registered).
Proof.
  apply (shared_secret_lets_refresh_token_authenticate Sample.shared
           Demo.at_register 0%N "u1@example.com" 1 2000 Demo.registered
           Demo.user1);
    vm_compute; reflexivity.
Defined.

Lemma requireRole_ignores_roles_witness :
  fst (requireRole ["admin"%string]
         (snd (authenticate Demo.config 2000 (Sample.bearer, Demo.registered))))
  = Return tt.
Proof.
  apply (requireRole_ignores_roles Demo.config 2000 Sample.bearer
           Demo.registered ["admin"%string]).
  vm_compute. reflexivity.
Defined.

Lemma findRefreshToken_never_returns_expired_witness :
  In Demo.row1 (Db.refreshTokens Demo.registered)
  /\ RefreshTokenData.token Demo.row1 = Demo.R1
  /\ 2000 <= RefreshTokenData.expiresAt Demo.row1
  /\ snd (RefreshTokenService.findRefreshToken 2000 Demo.R1 Demo.registered)
     = Demo.registered.
Proof.
  apply (findRefreshToken_never_returns_expired 2000 Demo.R1 Demo.registered
           Demo.row1).
  vm_compute. reflexivity.
Defined.

Lemma findRefreshToken_purges_expired_witness :
  fst (RefreshTokenService.findRefreshToken (Env.clock Demo.past_expiry)
         Demo.R1 Demo.registered) = Return None
  /\ ~ In Demo.row1
         (Db.refreshTokens
            (snd (RefreshTokenService.findRefreshToken
                    (Env.clock Demo.past_expiry) Demo.R1 Demo.registered))).
Proof.
  destruct (findRefreshToken_purges_expired (Env.clock Demo.past_expiry)
              Demo.R1 Demo.registered Demo.row1)
    as (H1 & H2 & _); try (vm_compute; reflexivity).
  split; [exact H1 | exact H2].
Defined.

Lemma rotation_returns_only_after_all_checks_witness :
  exists r c u,
    find (prisma.refreshToken.by_token Demo.R1)
      (Db.refreshTokens Demo.registered) = Some r
    /\ Env.clock Demo.at_rotate <= RefreshTokenData.expiresAt r
    /\ jwt_verify (Env.clock Demo.at_rotate) Demo.R1
         (Config.JWT_REFRESH_SECRET Demo.config) "auth-api" "auth-client"
       = inr c
    /\ find (prisma.user.by_id (Claims.userId c)) (Db.users Demo.registered)
       = Some u
    /\ Claims.tokenVersion c = Some (RefreshTokenData.tokenVersion r)
    /\ Demo.pair2
       = generateTokens Demo.config Demo.at_rotate (User.id u) (User.email u)
           (RefreshTokenData.tokenVersion r + 1).
Proof.
  apply (rotation_returns_only_after_all_checks Demo.config Demo.at_rotate
           Demo.R1 Demo.registered Demo.pair2).
  vm_compute. reflexivity.
Defined.

Lemma rotation_bumps_reported_version_witness :
  fst (RefreshTokenService.getUserTokenVersion 0%N Demo.rotated) = Return 2.
Proof.
  apply (rotation_bumps_reported_version Demo.config Demo.at_rotate
           Demo.registered Demo.R1 Demo.row1 Demo.claims1 Demo.user1);
    vm_compute; (reflexivity || discriminate).
Defined.

Lemma rotation_revokes_sibling_sessions_witness :
  refreshToken Demo.config Demo.much_later
    (AuthTokens.refreshToken Sample.second)
    (snd (refreshToken Demo.config Demo.at_replay Demo.R1 Sample.two_devices))
  = (Throw SessionNotFound,
     snd (refreshToken Demo.config Demo.at_replay Demo.R1 Sample.two_devices)).
Proof.
  apply (rotation_revokes_sibling_sessions Demo.config Demo.at_replay
           Demo.much_later Sample.two_devices Demo.R1 Demo.row1 Demo.claims1
           Demo.user1 (AuthTokens.refreshToken Sample.second)
           Sample.row_second);
    try (vm_compute; reflexivity).
  vm_compute. discriminate.
Defined.

Lemma reachable_versions_start_at_one_witness :
  1 <= RefreshTokenData.tokenVersion Demo.row2
  /\ 1 <= reported_version
            (map RefreshTokenData.tokenVersion
               (rows_of (RefreshTokenData.userId Demo.row2) Demo.rotated)).
Proof.
  apply (reachable_versions_start_at_one Demo.config Demo.rotated Demo.row2).
  - unfold Demo.rotated, Demo.registered.
    apply reachable_after, reachable_after, reachable_empty.
  - vm_compute. left. reflexivity.
Defined.

Lemma register_rejects_known_email_witness :
  register Demo.config Demo.at_rotate
    (RegisterRequest.mk "U1@EXAMPLE.com" "another-password") Demo.registered
  = (Throw (ConflictError "User with this email already exists"),
     Demo.registered).
Proof.
  apply (register_rejects_known_email Demo.config Demo.at_rotate
           (RegisterRequest.mk "U1@EXAMPLE.com" "another-password")
           Demo.registered Demo.user1).
  - vm_compute. reflexivity.
  - vm_compute. repeat constructor.
  - vm_compute. left. reflexivity.
  - vm_compute. reflexivity.
Defined.

Lemma register_creates_account_and_session_witness :
  fst (UserService.findUserByEmail "U1@Example.COM" Demo.registered)
  = Return (Some Demo.user1).
Proof.
  destruct (register_creates_account_and_session Demo.config Demo.at_register
              Demo.u1 Db.empty Demo.user1 Demo.pair1)
    as (_ & _ & _ & Hfind & _); [vm_compute; reflexivity|].
  apply Hfind. vm_compute. reflexivity.
Defined.

Lemma login_failures_look_alike_witness :
  login Demo.config Demo.at_rotate Sample.wrong_password Demo.registered
  = (Throw (AuthenticationError "Invalid email or password"), Demo.registered).
Proof.
  apply (login_failures_look_alike Demo.config Demo.at_rotate
           Sample.wrong_password Demo.registered);
    try (vm_compute; reflexivity).
  right. exists Demo.user1. split; vm_compute; reflexivity.
Defined.

Lemma login_adds_a_session_and_keeps_live_ones_witness :
  Db.refreshTokens Sample.two_devices = [Demo.row1; Sample.row_second].
Proof.
  destruct (login_adds_a_session_and_keeps_live_ones Demo.config Demo.at_rotate
              Sample.credentials Demo.registered Demo.user1 Sample.second)
    as (_ & _ & Hrows & _); [vm_compute; reflexivity|].
  exact Hrows.
Defined.

Lemma deleteUser_removes_the_account_witness :
  fst (getUserProfile 0%N Demo.deleted) = Throw (NotFoundError "User not found").
Proof.
  refine (proj1 (proj2 (deleteUser_removes_the_account 0%N Demo.registered _))).
  vm_compute. reflexivity.
Defined.

Lemma rotation_failure_answers_witness :
  formatError SessionNotFound
  = ApiError.mk 401 "Invalid or expired refresh token" "AUTHENTICATION_ERROR".
Proof.
  destruct (rotation_failure_answers Demo.config Demo.at_replay Demo.R1
              Demo.rotated SessionNotFound) as [_|H];
    [vm_compute; reflexivity | reflexivity | discriminate H].
Defined.

Lemma register_is_not_atomic_witness :
  fst (register Demo.config Demo.at_register Sample.u2 Demo.registered)
  = Throw prisma.P2002
  /\ register Demo.config Demo.at_rotate Sample.u2
       (snd (register Demo.config Demo.at_register Sample.u2 Demo.registered))
     = (Throw (ConflictError "User with this email already exists"),
        snd (register Demo.config Demo.at_register Sample.u2 Demo.registered)).
Proof.
  destruct (register_is_not_atomic Demo.config Demo.at_register Demo.at_rotate
              Sample.u2 Demo.registered)
    as (H1 & _ & H3); try (vm_compute; reflexivity).
  - vm_compute. repeat constructor.
  - split; [exact H1 | exact H3].
Defined.

(** * Two rotations that overlap *)

(** The callback of [refreshToken] is its first half followed by its
    second. *)
Lemma refreshToken_body_split config env tok db :
  refreshToken_body config env tok db
  = bind (rotate_checks config env tok)
      (fun found => rotate_writes config env (fst found) (snd found)) db.
Proof.
  unfold refreshToken_body, rotate_checks, rotate_writes, bind,
    prisma.refreshToken.findUnique, verifyRefreshToken,
    UserService.findUserById, prisma.user.findUnique, ret, throw.
  destruct (find _ (Db.refreshTokens db)) as [r|]; [|reflexivity].
  destruct (RefreshTokenData.expiresAt r <? Env.clock env).
  { destruct (prisma.refreshToken.delete _ db) as [[x|e] db']; reflexivity. }
  destruct (jwt_verify _ _ _ _ _) as [err|c]; [reflexivity|].
  destruct (find _ (Db.users db)) as [u|]; [|reflexivity].
  destruct (negb _); reflexivity.
Qed.

(** The first half on a row that passes: it returns the row and the user
    and has written nothing. *)
Lemma rotate_checks_pass config env db tok r c u :
  store_wf config db ->
  find (prisma.refreshToken.by_token tok) (Db.refreshTokens db) = Some r ->
  (RefreshTokenData.expiresAt r <? Env.clock env) = false ->
  jwt_verify (Env.clock env) tok (Config.JWT_REFRESH_SECRET config)
    "auth-api" "auth-client" = inr c ->
  find (prisma.user.by_id (Claims.userId c)) (Db.users db) = Some u ->
  rotate_checks config env tok db = (Return (r, u), db).
Proof.
  intros Hwf Hfind Hlive Hver Huser.
  destruct (lookup_token _ _ _ Hfind) as [Hin Htok].
  destruct (jwt_verify_inr _ _ _ _ _ _ Hver) as [Hjws _].
  destruct (wf_row_claims config r c _ (store_wf_row config db r Hwf Hin)
              (eq_trans Htok Hjws)) as [_ Hcv].
  unfold rotate_checks.
  unfold bind at 1. unfold prisma.refreshToken.findUnique at 1.
  rewrite Hfind, Hlive.
  unfold bind at 1. unfold verifyRefreshToken, refreshTokenSecret.
  rewrite Hver. unfold ret at 1.
  unfold bind at 1. unfold UserService.findUserById, prisma.user.findUnique.
  rewrite Huser, Hcv, Z.eqb_refl. reflexivity.
Qed.

(** The second half on a store where neither the new token nor the new
    session id is taken by a row of another user. *)
Lemma rotate_writes_run config env r u db others :
  rows_of_others (User.id u) db = others ->
  existsb
    (prisma.refreshToken.by_token
       (AuthTokens.refreshToken
          (generateTokens config env (User.id u) (User.email u)
             (RefreshTokenData.tokenVersion r + 1)))) others = false ->
  existsb (prisma.refreshToken.by_sessionId (newSessionId env)) others = false ->
  existsb (fun x => N.eqb (User.id x) (User.id u)) (Db.users db) = true ->
  rotate_writes config env r u db
  = (Return (generateTokens config env (User.id u) (User.email u)
               (RefreshTokenData.tokenVersion r + 1)),
     Db.mk (Db.users db)
       (others
          ++ [RefreshTokenData.mk (Db.sequence db)
                (AuthTokens.refreshToken
                   (generateTokens config env (User.id u) (User.email u)
                      (RefreshTokenData.tokenVersion r + 1)))
                (User.id u) (RefreshTokenData.tokenVersion r + 1)
                (newSessionId env) (Env.clock env + SEVEN_DAYS)
                (Env.clock env) (Env.clock env)])
       (N.succ (Db.sequence db))).
Proof.
  intros Hothers Htok Hsid Hfk. unfold rotate_writes. cbv zeta.
  unfold bind at 1. unfold prisma.refreshToken.deleteMany.
  unfold bind at 1. unfold prisma.refreshToken.create.
  cbn [Db.refreshTokens Db.with_refreshTokens Db.users Db.sequence].
  fold (rows_of_others (User.id u) db). rewrite Hothers, Htok, Hsid, Hfk.
  reflexivity.
Qed.

Lemma rows_of_others_after_rotation uid (db : Db.t) users row seq :
  RefreshTokenData.userId row = uid ->
  rows_of_others uid (Db.mk users (rows_of_others uid db ++ [row]) seq)
  = rows_of_others uid db.
Proof.
  intros Hrow. unfold rows_of_others at 1. cbn [Db.refreshTokens].
  rewrite filter_app. unfold rows_of_others. rewrite filter_idempotent.
  cbn [filter]. unfold prisma.refreshToken.by_userId at 2.
  rewrite Hrow, N.eqb_refl. cbn [negb]. apply app_nil_r.
Qed.

(** C5.  The claim: of two concurrent rotations of the same refresh token
    exactly one succeeds.  The code: when the two transactions overlap, the
    reads of both before the writes of either, both calls return a pair.
    For a stored row that passes the checks at both clock readings, with
    session ids unused by other users' rows, both outcomes are the pairs
    issued at the row's version plus one, and of the two new rows only the
    one written last is left. *)
Theorem overlapping_rotations_both_succeed config envA envB db tok r c u :
  store_wf config db ->
  find (prisma.refreshToken.by_token tok) (Db.refreshTokens db) = Some r ->
  (RefreshTokenData.expiresAt r <? Env.clock envA) = false ->
  (RefreshTokenData.expiresAt r <? Env.clock envB) = false ->
  jwt_verify (Env.clock envA) tok (Config.JWT_REFRESH_SECRET config)
    "auth-api" "auth-client" = inr c ->
  jwt_verify (Env.clock envB) tok (Config.JWT_REFRESH_SECRET config)
    "auth-api" "auth-client" = inr c ->
  find (prisma.user.by_id (Claims.userId c)) (Db.users db) = Some u ->
  existsb (prisma.refreshToken.by_sessionId (newSessionId envA))
    (rows_of_others (RefreshTokenData.userId r) db) = false ->
  existsb (prisma.refreshToken.by_sessionId (newSessionId envB))
    (rows_of_others (RefreshTokenData.userId r) db) = false ->
  let issued env :=
    generateTokens config env (RefreshTokenData.userId r) (User.email u)
      (RefreshTokenData.tokenVersion r + 1) in
  overlapped config envA envB tok tok db
  = ((Return (issued envA), Return (issued envB)),
     Db.mk (Db.users db)
       (rows_of_others (RefreshTokenData.userId r) db
          ++ [RefreshTokenData.mk (N.succ (Db.sequence db))
                (AuthTokens.refreshToken (issued envB))
                (RefreshTokenData.userId r)
                (RefreshTokenData.tokenVersion r + 1)
                (newSessionId envB) (Env.clock envB + SEVEN_DAYS)
                (Env.clock envB) (Env.clock envB)])
       (N.succ (N.succ (Db.sequence db)))).
Proof.
  intros Hwf Hfind HliveA HliveB HverA HverB Huser HsidA HsidB issued.
  destruct (lookup_token _ _ _ Hfind) as [Hin Htok].
  destruct (jwt_verify_inr _ _ _ _ _ _ HverA) as [Hjws _].
  destruct (wf_row_claims config r c _ (store_wf_row config db r Hwf Hin)
              (eq_trans Htok Hjws)) as [Hcu _].
  assert (Hid : User.id u = RefreshTokenData.userId r).
  { pose proof (find_some _ _ Huser) as [_ Hp].
    apply N.eqb_eq in Hp. congruence. }
  assert (Hfk : existsb (fun x => N.eqb (User.id x) (User.id u)) (Db.users db)
                = true).
  { rewrite Hid, <- Hcu. exact (find_existsb _ _ _ Huser). }
  unfold overlapped.
  rewrite (rotate_checks_pass config envA db tok r c u Hwf Hfind HliveA HverA Huser).
  rewrite (rotate_checks_pass config envB db tok r c u Hwf Hfind HliveB HverB Huser).
  unfold prisma.transaction.
  rewrite (rotate_writes_run config envA r u db
             (rows_of_others (RefreshTokenData.userId r) db)).
  2:{ rewrite Hid. reflexivity. }
  2:{ rewrite Hid. apply issued_token_unused. exact Hwf. }
  2:{ exact HsidA. }
  2:{ exact Hfk. }
  rewrite (rotate_writes_run config envB r u _
             (rows_of_others (RefreshTokenData.userId r) db)).
  2:{ rewrite Hid. apply rows_of_others_after_rotation. reflexivity. }
  2:{ rewrite Hid. apply issued_token_unused. exact Hwf. }
  2:{ exact HsidB. }
  2:{ exact Hfk. }
  cbn [Db.users Db.sequence]. unfold issued. rewrite Hid. reflexivity.
Qed.

Lemma overlapping_rotations_both_succeed_witness :
  let pairA := generateTokens Demo.config Demo.at_rotate 0%N "u1@example.com" 2 in
  let pairB := generateTokens Demo.config Demo.at_replay 0%N "u1@example.com" 2 in
  let out :=
    overlapped Demo.config Demo.at_rotate Demo.at_replay Demo.R1 Demo.R1
      Demo.registered in
  fst out = (Return pairA, Return pairB)
  /\ pairA <> pairB
  /\ map RefreshTokenData.token (Db.refreshTokens (snd out))
     = [AuthTokens.refreshToken pairB].
Proof.
  cbv zeta.
  rewrite (overlapping_rotations_both_succeed Demo.config Demo.at_rotate
             Demo.at_replay Demo.registered Demo.R1 Demo.row1 Demo.claims1
             Demo.user1);
    try (vm_compute; reflexivity).
  split; [vm_compute; reflexivity|]. split; vm_compute; [discriminate|reflexivity].
Defined.
